(** * Trademarks-Questionnaire: the variable-transformation and
      template-selection engine of [lib/document-generator.ts]

    A shallow embedding of the rule scorer, the template selector, the
    formula evaluator and the relevant stages of
    [transformSurveyToVariables], followed by the properties proved about
    them.

    Conventions of the embedding.
    - A JavaScript string is a [string] (a sequence of bytes).  Case mapping
      and white space are the ASCII ones; bytes above 127 are left alone.
    - A JavaScript number is a [JS.number]: an exact rational, the two
      zeros, the two infinities and NaN.  The arithmetic is exact: the
      rounding and the overflow of binary64 are not represented, so the
      model agrees with the engine wherever binary64 arithmetic is exact
      (integers below 2^53, short decimal fractions that survive a round
      trip, quotients that are dyadic).
    - A JavaScript object used as a record is an insertion-ordered
      association list with unique keys ([Record]): [get] finds the keys
      of the object itself, [read] is the property access [r[k]], which
      also finds the names inherited from [Object.prototype].  No
      assignment gives an object a key [__proto__] of its own. *)

From Stdlib Require Import ZArith QArith Qround List String Ascii Bool Lia.
From Stdlib Require Import Permutation.
Import ListNotations.

Close Scope Q_scope.
Open Scope string_scope.

(* ================================================================== *)
(** * Host-language primitives                                         *)
(* ================================================================== *)

Module JS.

(** ** Characters and strings *)

Definition code (c : ascii) : nat := nat_of_ascii c.

Definition isDigit (c : ascii) : bool :=
  (48 <=? code c)%nat && (code c <=? 57)%nat.

(** [\s] restricted to ASCII: TAB, LF, VT, FF, CR, SPACE. *)
Definition isWhiteSpace (c : ascii) : bool :=
  ((9 <=? code c)%nat && (code c <=? 13)%nat) || (code c =? 32)%nat.

Definition isUpperAlpha (c : ascii) : bool :=
  (65 <=? code c)%nat && (code c <=? 90)%nat.

Definition isLowerAlpha (c : ascii) : bool :=
  (97 <=? code c)%nat && (code c <=? 122)%nat.

Definition charToLower (c : ascii) : ascii :=
  if isUpperAlpha c then ascii_of_nat (code c + 32) else c.

Definition charToUpper (c : ascii) : ascii :=
  if isLowerAlpha c then ascii_of_nat (code c - 32) else c.

Fixpoint mapChars (f : ascii -> ascii) (s : string) : string :=
  match s with
  | EmptyString => EmptyString
  | String c r => String (f c) (mapChars f r)
  end.

(** [s.toLowerCase()] and [s.toUpperCase()]. *)
Definition toLowerCase (s : string) : string := mapChars charToLower s.
Definition toUpperCase (s : string) : string := mapChars charToUpper s.

(** [s.replace(/[...]/g, '')]: drop every character of a class. *)
Fixpoint removeChars (drop : ascii -> bool) (s : string) : string :=
  match s with
  | EmptyString => EmptyString
  | String c r => if drop c then removeChars drop r else String c (removeChars drop r)
  end.

Fixpoint allChars (p : ascii -> bool) (s : string) : bool :=
  match s with
  | EmptyString => true
  | String c r => p c && allChars p r
  end.

Definition isEmpty (s : string) : bool :=
  match s with EmptyString => true | _ => false end.

(** [s.startsWith(p)]. *)
Fixpoint startsWith (p s : string) : bool :=
  match p with
  | EmptyString => true
  | String a p' =>
      match s with
      | EmptyString => false
      | String b s' => Ascii.eqb a b && startsWith p' s'
      end
  end.

(** [s.includes(sub)]. *)
Fixpoint includes (s sub : string) : bool :=
  startsWith sub s ||
  match s with
  | EmptyString => false
  | String _ r => includes r sub
  end.

Fixpoint trimStart (s : string) : string :=
  match s with
  | String c r => if isWhiteSpace c then trimStart r else s
  | EmptyString => EmptyString
  end.

Fixpoint trimEnd (s : string) : string :=
  match s with
  | EmptyString => EmptyString
  | String c r =>
      let r' := trimEnd r in
      if isWhiteSpace c && isEmpty r' then EmptyString else String c r'
  end.

(** [s.trim()]. *)
Definition trim (s : string) : string := trimEnd (trimStart s).

(** [s.charAt(0).toUpperCase() + s.slice(1)]. *)
Definition upperFirst (s : string) : string :=
  match s with
  | EmptyString => EmptyString
  | String c r => String (charToUpper c) r
  end.

(** [s.charAt(0).toLowerCase() + s.slice(1)]. *)
Definition lowerFirst (s : string) : string :=
  match s with
  | EmptyString => EmptyString
  | String c r => String (charToLower c) r
  end.

Fixpoint revOnto (s acc : string) : string :=
  match s with
  | EmptyString => acc
  | String c r => revOnto r (String c acc)
  end.

Definition rev (s : string) : string := revOnto s EmptyString.

(** [s.split(sep)] for a non-empty separator.  [skip] counts the characters
    of a separator occurrence still to be passed over; [cur] is the current
    piece, reversed. *)
Fixpoint splitFrom (sep s : string) (skip : nat) (cur : string) : list string :=
  match s with
  | EmptyString => [rev cur]
  | String c r =>
      match skip with
      | S k => splitFrom sep r k cur
      | O =>
          if startsWith sep s
          then rev cur :: splitFrom sep r (String.length sep - 1) EmptyString
          else splitFrom sep r 0 (String c cur)
      end
  end.

Definition split (sep s : string) : list string := splitFrom sep s 0 EmptyString.

(** [items.join(sep)]. *)
Fixpoint join (sep : string) (items : list string) : string :=
  match items with
  | [] => EmptyString
  | [x] => x
  | x :: rest => x ++ sep ++ join sep rest
  end.

(** [n.toString().padStart(2, '0')] once [n.toString()] is at hand. *)
Definition padStart2 (s : string) : string :=
  match s with
  | String _ EmptyString => String "0" s
  | EmptyString => "00"
  | _ => s
  end.

(** ** Numbers *)

Inductive number : Type :=
| NaN
| PosInf
| NegInf
| NegZero
| Fin (q : Q).

Definition fin (q : Q) : number := Fin (Qred q).

Definition ofZ (z : Z) : number := Fin (Qmake z 1).
Definition ofNat (n : nat) : number := ofZ (Z.of_nat n).

Definition isNaN (x : number) : bool :=
  match x with NaN => true | _ => false end.

Definition isFinite (x : number) : bool :=
  match x with NegZero | Fin _ => true | _ => false end.

Definition isInf (x : number) : bool :=
  match x with PosInf | NegInf => true | _ => false end.

Definition isZero (x : number) : bool :=
  match x with
  | NegZero => true
  | Fin q => Qeq_bool q 0
  | _ => false
  end.

(** The sign bit. *)
Definition isNeg (x : number) : bool :=
  match x with
  | NegInf | NegZero => true
  | Fin q => negb (Qle_bool 0 q)
  | _ => false
  end.

Definition zero (neg : bool) : number := if neg then NegZero else Fin 0.
Definition inf (neg : bool) : number := if neg then NegInf else PosInf.

(** The rational a finite number stands for. *)
Definition valueOf (x : number) : Q :=
  match x with Fin q => q | _ => 0 end.

Definition neg (x : number) : number :=
  match x with
  | NaN => NaN
  | PosInf => NegInf
  | NegInf => PosInf
  | NegZero => Fin 0
  | Fin q => if Qeq_bool q 0 then NegZero else fin (Qopp q)
  end.

Definition add (x y : number) : number :=
  match x, y with
  | NaN, _ | _, NaN => NaN
  | PosInf, NegInf | NegInf, PosInf => NaN
  | PosInf, _ | _, PosInf => PosInf
  | NegInf, _ | _, NegInf => NegInf
  | NegZero, NegZero => NegZero
  | NegZero, Fin q | Fin q, NegZero => fin q
  | Fin a, Fin b => fin (Qplus a b)
  end.

Definition sub (x y : number) : number := add x (neg y).

Definition mul (x y : number) : number :=
  if isNaN x || isNaN y then NaN
  else if (isInf x && isZero y) || (isZero x && isInf y) then NaN
  else if isInf x || isInf y then inf (xorb (isNeg x) (isNeg y))
  else if isZero x || isZero y then zero (xorb (isNeg x) (isNeg y))
  else fin (Qmult (valueOf x) (valueOf y)).

Definition div (x y : number) : number :=
  if isNaN x || isNaN y then NaN
  else if (isInf x && isInf y) || (isZero x && isZero y) then NaN
  else if isInf x || isZero y then inf (xorb (isNeg x) (isNeg y))
  else if isInf y || isZero x then zero (xorb (isNeg x) (isNeg y))
  else fin (Qdiv (valueOf x) (valueOf y)).

(** Position on the extended real line; NaN has none. *)
Definition rank (x : number) : option (Z * Q) :=
  match x with
  | NaN => None
  | NegInf => Some ((-1)%Z, 0%Q)
  | PosInf => Some (1%Z, 0%Q)
  | NegZero => Some (0%Z, 0%Q)
  | Fin q => Some (0%Z, q)
  end.

Definition ltb (x y : number) : bool :=
  match rank x, rank y with
  | Some (i, a), Some (j, b) =>
      (i <? j)%Z || ((i =? j)%Z && negb (Qle_bool b a))
  | _, _ => false
  end.

Definition leb (x y : number) : bool :=
  match rank x, rank y with
  | Some (i, a), Some (j, b) =>
      (i <? j)%Z || ((i =? j)%Z && Qle_bool a b)
  | _, _ => false
  end.

(** [x === y] on numbers. *)
Definition eqb (x y : number) : bool :=
  match rank x, rank y with
  | Some (i, a), Some (j, b) => (i =? j)%Z && Qeq_bool a b
  | _, _ => false
  end.

Definition gtb (x y : number) : bool := ltb y x.
Definition geb (x y : number) : bool := leb y x.

(** Truthiness of a number: [0], [-0] and [NaN] are falsy. *)
Definition truthy (x : number) : bool := negb (isNaN x || isZero x).

(** [Math.floor]. *)
Definition floor (x : number) : number :=
  match x with
  | Fin q => Fin (Qmake (Qfloor q) 1)
  | _ => x
  end.

(** *** Reading numbers *)

Fixpoint spanDigits (s : string) : string * string :=
  match s with
  | String c r =>
      if isDigit c then let '(d, rest) := spanDigits r in (String c d, rest)
      else (EmptyString, s)
  | EmptyString => (EmptyString, EmptyString)
  end.

Fixpoint digitsValue (acc : Z) (s : string) : Z :=
  match s with
  | EmptyString => acc
  | String c r => digitsValue (10 * acc + Z.of_nat (code c - 48))%Z r
  end.

Definition takeSign (s : string) : bool * string :=
  match s with
  | String "-"%char r => (true, r)
  | String "+"%char r => (false, r)
  | _ => (false, s)
  end.

(** The exponent part [e[+-]ddd] of a decimal literal, 0 when there is none
    (an [e] that no digit follows is not part of the literal). *)
Definition exponentPart (s : string) : Z :=
  match s with
  | String c r =>
      if Ascii.eqb c "e" || Ascii.eqb c "E" then
        let '(sgn, r1) := takeSign r in
        let '(ds, _) := spanDigits r1 in
        if isEmpty ds then 0%Z
        else if sgn then (- digitsValue 0 ds)%Z else digitsValue 0 ds
      else 0%Z
  | EmptyString => 0%Z
  end.

(** [parseFloat(s)]: the longest prefix of the trimmed input that is a
    decimal literal (or a signed [Infinity]); NaN when there is none. *)
Definition parseFloat (s : string) : number :=
  let '(sgn, s1) := takeSign (trimStart s) in
  if startsWith "Infinity" s1 then inf sgn
  else
    let '(ip, r1) := spanDigits s1 in
    let '(fp, r2) :=
      match r1 with
      | String "."%char r => spanDigits r
      | _ => (EmptyString, r1)
      end in
    if isEmpty ip && isEmpty fp then NaN
    else
      let mant := digitsValue 0 (ip ++ fp) in
      let scale := (exponentPart r2 - Z.of_nat (String.length fp))%Z in
      if (mant =? 0)%Z then zero sgn
      else
        let q := if (0 <=? scale)%Z
                 then Qmake (mant * 10 ^ scale)%Z 1
                 else Qmake mant (Z.to_pos (10 ^ (- scale))) in
        fin (if sgn then Qopp q else q).

(** [parseInt(s, 10)]; [None] stands for NaN. *)
Definition parseInt (s : string) : option Z :=
  let '(sgn, s1) := takeSign (trimStart s) in
  let '(ds, _) := spanDigits s1 in
  if isEmpty ds then None
  else Some (if sgn then (- digitsValue 0 ds)%Z else digitsValue 0 ds).

(** *** Printing numbers *)

Definition digitChar (d : Z) : ascii := ascii_of_nat (48 + Z.to_nat d).

Fixpoint digitsOnto (fuel : nat) (n : Z) (acc : string) : string :=
  match fuel with
  | O => acc
  | S f =>
      let acc' := String (digitChar (n mod 10)) acc in
      if (n / 10 =? 0)%Z then acc' else digitsOnto f (n / 10)%Z acc'
  end.

(** The decimal digits of a natural number. *)
Definition decimal (n : Z) : string :=
  digitsOnto (S (Z.to_nat (Z.log2 n))) n EmptyString.

Definition intToString (z : Z) : string :=
  if (z <? 0)%Z then String "-" (decimal (- z)) else decimal z.

Fixpoint zeros (n : nat) : string :=
  match n with O => EmptyString | S k => String "0" (zeros k) end.

Fixpoint takeStr (n : nat) (s : string) : string :=
  match n, s with
  | S k, String c r => String c (takeStr k r)
  | _, _ => EmptyString
  end.

Fixpoint dropStr (n : nat) (s : string) : string :=
  match n, s with
  | S k, String _ r => dropStr k r
  | _, _ => s
  end.

(** [c] such that [a/b < 10^-c] and [a/b >= 10^-(c+1)], for [0 < a < b]. *)
Fixpoint leadingZeros (fuel : nat) (a b : Z) (c : Z) : Z :=
  match fuel with
  | O => c
  | S f => if (b <=? a * 10)%Z then c else leadingZeros f (a * 10)%Z b (c + 1)%Z
  end.

(** The decimal exponent [n] of a positive rational: [10^(n-1) <= q < 10^n]. *)
Definition decimalExponent (q : Q) : Z :=
  let a := Qnum q in
  let b := Zpos (Qden q) in
  if (b <=? a)%Z then Z.of_nat (String.length (decimal (a / b)))
  else (- leadingZeros (S (Z.to_nat (Z.log2 b))) a b 0)%Z.

(** [round(q * 10^e)], halves upward, for a non-negative rational. *)
Definition scaledRound (q : Q) (e : Z) : Z :=
  let a := Qnum q in
  let b := Zpos (Qden q) in
  let '(num, den) := if (0 <=? e)%Z then ((a * 10 ^ e)%Z, b)
                     else (a, (b * 10 ^ (- e))%Z) in
  ((2 * num + den) / (2 * den))%Z.

Fixpoint stripZerosRev (s : string) : string :=
  match s with
  | String "0"%char r => stripZerosRev r
  | _ => s
  end.

(** Drop the trailing zeros of a digit string. *)
Definition stripTrailingZeros (s : string) : string := rev (stripZerosRev (rev s)).

(** The significant digits of a positive rational (17 at most, the length
    binary64 needs) and its decimal exponent. *)
Definition significand (q : Q) : string * Z :=
  let n := decimalExponent q in
  let m := scaledRound q (17 - n) in
  let '(m1, n1) := if (10 ^ 17 <=? m)%Z then ((m / 10)%Z, (n + 1)%Z) else (m, n) in
  (stripTrailingZeros (decimal m1), n1).

(** [Number::toString] for a positive finite number, given its digits [s]
    and its exponent [n]. *)
Definition layoutDigits (s : string) (n : Z) : string :=
  let k := Z.of_nat (String.length s) in
  if ((k <=? n) && (n <=? 21))%Z then s ++ zeros (Z.to_nat (n - k))
  else if ((0 <? n) && (n <=? 21))%Z then
    takeStr (Z.to_nat n) s ++ "." ++ dropStr (Z.to_nat n) s
  else if ((-6 <? n) && (n <=? 0))%Z then
    "0." ++ zeros (Z.to_nat (- n)) ++ s
  else
    let e := (n - 1)%Z in
    let ex := (if (e <? 0)%Z then "-" else "+") ++ decimal (Z.abs e) in
    if (k =? 1)%Z then s ++ "e" ++ ex
    else takeStr 1 s ++ "." ++ dropStr 1 s ++ "e" ++ ex.

Definition positiveToString (q : Q) : string :=
  let '(s, n) := significand q in layoutDigits s n.

(** [x.toString()] and [String(x)]. *)
Definition toString (x : number) : string :=
  match x with
  | NaN => "NaN"
  | PosInf => "Infinity"
  | NegInf => "-Infinity"
  | NegZero => "0"
  | Fin q =>
      if Qeq_bool q 0 then "0"
      else if Qle_bool 0 q then positiveToString (Qred q)
      else String "-" (positiveToString (Qred (Qopp q)))
  end.

(** Thousands separators of the [en-US] locale. *)
Fixpoint groupRev (s : string) (n : nat) : string :=
  match s with
  | EmptyString => EmptyString
  | String c r =>
      match n with
      | O => String "," (String c (groupRev r 2))
      | S k => String c (groupRev r k)
      end
  end.

Definition groupThousands (s : string) : string := rev (groupRev (rev s) 3).

(** Trailing zeros of a fraction are dropped down to [minFD] digits. *)
Definition trimFraction (minFD : nat) (frac : string) : string :=
  takeStr minFD frac ++ stripTrailingZeros (dropStr minFD frac).

(** [x.toLocaleString('en-US', {minimumFractionDigits, maximumFractionDigits})];
    the call without options has [minFD = 0] and [maxFD = 3]. *)
Definition toLocaleString (x : number) (minFD maxFD : nat) : string :=
  match x with
  | NaN => "NaN"
  | PosInf => "∞"
  | NegInf => "-∞"
  | NegZero => String "-" ("0" ++ (if (minFD =? 0)%nat then "" else "." ++ zeros minFD))
  | Fin q =>
      let sgn := negb (Qle_bool 0 q) in
      let a := Qred (if sgn then Qopp q else q) in
      let m := scaledRound a (Z.of_nat maxFD) in
      let p := (10 ^ Z.of_nat maxFD)%Z in
      let ip := groupThousands (decimal (m / p)) in
      let fd := decimal (m mod p) in
      let frac := trimFraction minFD (zeros (maxFD - String.length fd) ++ fd) in
      (if sgn then "-" else "") ++ ip ++ (if isEmpty frac then "" else "." ++ frac)
  end.

End JS.

(* ================================================================== *)
(** * Data model ([lib/document-generator.ts], type definitions)       *)
(* ================================================================== *)

(** A JavaScript object used as [Record<string, V>]: the keys in insertion
    order, each once. *)
Definition Record (V : Type) : Type := list (string * V).

Fixpoint get {V : Type} (r : Record V) (k : string) : option V :=
  match r with
  | [] => None
  | (k', v) :: rest => if String.eqb k' k then Some v else get rest k
  end.

(** [r[k] = v]: an existing key keeps its place, a new key goes last. *)
Fixpoint set {V : Type} (r : Record V) (k : string) (v : V) : Record V :=
  match r with
  | [] => [(k, v)]
  | (k', v') :: rest =>
      if String.eqb k' k then (k', v) :: rest else (k', v') :: set rest k v
  end.

Definition keys {V : Type} (r : Record V) : list string := map fst r.

(** The names every object inherits from [Object.prototype].  Read on a
    record that has no key of that name, each gives a function (the
    prototype itself for [__proto__]): a value that is truthy and is not a
    string. *)
Definition OBJECT_PROTOTYPE : list string :=
  ["constructor"; "__defineGetter__"; "__defineSetter__"; "hasOwnProperty";
   "__lookupGetter__"; "__lookupSetter__"; "isPrototypeOf";
   "propertyIsEnumerable"; "toString"; "valueOf"; "__proto__"; "toLocaleString"].

Definition inherited (k : string) : bool :=
  existsb (String.eqb k) OBJECT_PROTOTYPE.

(** What [r[k]] reads on a record made by an object literal. *)
Inductive Property (V : Type) : Type :=
| Own (v : V)
| Inherited
| Undefined.

Arguments Own {V} v.
Arguments Inherited {V}.
Arguments Undefined {V}.

Definition read {V : Type} (r : Record V) (k : string) : Property V :=
  match get r k with
  | Some v => Own v
  | None => if inherited k then Inherited else Undefined
  end.

(** The value of an answer:
    [string | string[] | Array<Record<string, string>>]. *)
Inductive AnswerValue : Type :=
| VText (s : string)
| VList (items : list string)
| VGroup (items : list (Record string)).

Module SurveyResponse.
(** The optional [price] field is read by none of the functions below. *)
Record t : Type := mk { questionId : string; value : AnswerValue }.
End SurveyResponse.

Inductive Operator : Type :=
| OpEq | OpNeq | OpContains | OpNotContains | OpIn | OpGt | OpGe | OpLt | OpLe.

Inductive ValueType : Type := Literal | Question.
Inductive SourceType : Type := FromQuestion | FromComputed.

Module RuleCondition.
Record t : Type := mk {
  questionId : string;
  operator : Operator;
  value : string;
  valueType : option ValueType;
  valueQuestionId : option string;
  sourceType : option SourceType
}.
End RuleCondition.

Inductive LogicalOperator : Type := AND | OR.

Module SelectionRule.
Record t : Type := mk {
  conditions : list RuleCondition.t;
  logicalOperator : option LogicalOperator;
  priority : Z;
  isAlwaysInclude : bool;
  isManualOnly : bool
}.
End SelectionRule.

Module Template.
(** [category], [variables], [repeatForPersons] and [personTypeFilter]
    play no part in rule evaluation and selection. *)
Record t : Type := mk {
  id : string;
  name : string;
  displayName : string;
  rules : option (list SelectionRule.t);
  isActive : bool
}.
End Template.

Module TemplateSelection.
Record t : Type := mk {
  required : list Template.t;
  suggested : list Template.t;
  optional : list Template.t
}.
End TemplateSelection.

Module RuleEvaluationResult.
Record t : Type := mk {
  templateId : string;
  score : JS.number;
  matchedRules : nat;
  totalRules : nat;
  isAlwaysInclude : bool;
  isManualOnly : bool
}.
End RuleEvaluationResult.

(** A computed variable: [string | number]. *)
Inductive ComputedValue : Type :=
| CString (s : string)
| CNumber (n : JS.number).

(** [responses.find(r => r.questionId === id)]. *)
Definition findResponse (responses : list SurveyResponse.t) (id : string)
  : option SurveyResponse.t :=
  find (fun r => String.eqb (SurveyResponse.questionId r) id) responses.

(** [Array.isArray(v) ? v.join(',') : String(v)] on an answer. *)
Definition answerToString (v : AnswerValue) : string :=
  match v with
  | VText s => s
  | VList items => JS.join "," items
  | VGroup items => JS.join "," (map (fun _ => "[object Object]") items)
  end.

Definition computedToString (v : ComputedValue) : string :=
  match v with
  | CString s => s
  | CNumber n => JS.toString n
  end.

(** [Array.prototype.sort(cmp)]: a stable sort; [cmp a b > 0] puts [a]
    after [b]. *)
Fixpoint insertSorted {A : Type} (cmp : A -> A -> Z) (x : A) (l : list A) : list A :=
  match l with
  | [] => [x]
  | y :: r => if (cmp x y <=? 0)%Z then x :: l else y :: insertSorted cmp x r
  end.

Definition sortBy {A : Type} (cmp : A -> A -> Z) (l : list A) : list A :=
  fold_right (insertSorted cmp) [] l.

(* ================================================================== *)
(** * Condition evaluator and rule scorer                              *)
(* ================================================================== *)

(** The value a condition looks at, before it is turned into a string. *)
Inductive Actual : Type :=
| AnswerOf (v : AnswerValue)
| ComputedOf (v : ComputedValue).

Definition actualValue (condition : RuleCondition.t)
    (responses : list SurveyResponse.t)
    (computedVariables : option (Record ComputedValue)) : option Actual :=
  match RuleCondition.sourceType condition, computedVariables with
  | Some FromComputed, Some cv =>
      option_map ComputedOf (get cv (RuleCondition.questionId condition))
  | _, _ =>
      option_map (fun r => AnswerOf (SurveyResponse.value r))
        (findResponse responses (RuleCondition.questionId condition))
  end.

Definition actualToString (a : Actual) : string :=
  match a with
  | AnswerOf v => answerToString v
  | ComputedOf v => computedToString v
  end.

(** The operand of the comparison: the literal [condition.value], or the
    answer to [valueQuestionId]; [None] when that answer is missing. *)
Definition conditionOperand (condition : RuleCondition.t)
    (responses : list SurveyResponse.t) : option string :=
  match RuleCondition.valueType condition, RuleCondition.valueQuestionId condition with
  | Some Question, Some (String c r) =>
      option_map (fun r => answerToString (SurveyResponse.value r))
        (findResponse responses (String c r))
  | _, _ => Some (RuleCondition.value condition)
  end.

Definition isNeq (op : Operator) : bool :=
  match op with OpNeq => true | _ => false end.

(** The [switch (condition.operator)] of [evaluateCondition]. *)
Definition compareOperands (op : Operator) (valueStr conditionValue : string) : bool :=
  let numValue := JS.parseFloat valueStr in
  let numCondition := JS.parseFloat conditionValue in
  let bothNumbers := negb (JS.isNaN numValue) && negb (JS.isNaN numCondition) in
  match op with
  | OpEq =>
      if bothNumbers then JS.eqb numValue numCondition
      else String.eqb (JS.toLowerCase valueStr) (JS.toLowerCase conditionValue)
  | OpNeq =>
      if bothNumbers then negb (JS.eqb numValue numCondition)
      else negb (String.eqb (JS.toLowerCase valueStr) (JS.toLowerCase conditionValue))
  | OpContains =>
      JS.includes (JS.toLowerCase valueStr) (JS.toLowerCase conditionValue)
  | OpNotContains =>
      negb (JS.includes (JS.toLowerCase valueStr) (JS.toLowerCase conditionValue))
  | OpIn =>
      let allowedValues :=
        map (fun v => JS.toLowerCase (JS.trim v)) (JS.split "," conditionValue) in
      existsb (String.eqb (JS.toLowerCase valueStr)) allowedValues
  | OpGt => bothNumbers && JS.gtb numValue numCondition
  | OpGe => bothNumbers && JS.geb numValue numCondition
  | OpLt => bothNumbers && JS.ltb numValue numCondition
  | OpLe => bothNumbers && JS.leb numValue numCondition
  end.

Definition evaluateCondition (condition : RuleCondition.t)
    (responses : list SurveyResponse.t)
    (computedVariables : option (Record ComputedValue)) : bool :=
  match actualValue condition responses computedVariables with
  | None => isNeq (RuleCondition.operator condition)
  | Some actual =>
      let valueStr := actualToString actual in
      match conditionOperand condition responses with
      | None => isNeq (RuleCondition.operator condition)
      | Some conditionValue =>
          compareOperands (RuleCondition.operator condition) valueStr conditionValue
      end
  end.

Definition hasConditions (rule : SelectionRule.t) : bool :=
  negb (List.length (SelectionRule.conditions rule) =? 0)%nat.

(** [conditions.some(...)] under [OR], [conditions.every(...)] otherwise. *)
Definition conditionsMet (rule : SelectionRule.t)
    (responses : list SurveyResponse.t)
    (computedVariables : option (Record ComputedValue)) : bool :=
  match SelectionRule.logicalOperator rule with
  | Some OR =>
      existsb (fun c => evaluateCondition c responses computedVariables)
        (SelectionRule.conditions rule)
  | _ =>
      forallb (fun c => evaluateCondition c responses computedVariables)
        (SelectionRule.conditions rule)
  end.

(** One turn of the [for (const rule of sortedRules)] loop; the state is
    [(matchedRules, highestPriorityMatch)]. *)
Definition scoreStep (responses : list SurveyResponse.t)
    (computedVariables : option (Record ComputedValue))
    (st : nat * bool) (rule : SelectionRule.t) : nat * bool :=
  if negb (hasConditions rule) then st
  else if conditionsMet rule responses computedVariables then (S (fst st), true)
  else st.

Definition byPriority (a b : SelectionRule.t) : Z :=
  (SelectionRule.priority a - SelectionRule.priority b)%Z.

Definition evaluateRules (template : Template.t)
    (responses : list SurveyResponse.t)
    (computedVariables : option (Record ComputedValue)) : RuleEvaluationResult.t :=
  let rules := match Template.rules template with Some r => r | None => [] end in
  if (List.length rules =? 0)%nat then
    RuleEvaluationResult.mk (Template.id template) (JS.ofZ 0) 0 0 false false
  else
    match find SelectionRule.isAlwaysInclude rules with
    | Some _ =>
        RuleEvaluationResult.mk (Template.id template) (JS.ofZ 1)
          (List.length rules) (List.length rules) true false
    | None =>
        match find SelectionRule.isManualOnly rules with
        | Some _ =>
            RuleEvaluationResult.mk (Template.id template) (JS.ofZ 0)
              0 (List.length rules) false true
        | None =>
            let sortedRules := sortBy byPriority rules in
            let '(matchedRules, _) :=
              fold_left (scoreStep responses computedVariables) sortedRules (0, false) in
            let rulesWithConditions := filter hasConditions rules in
            let totalRules := List.length rulesWithConditions in
            let score :=
              if (0 <? totalRules)%nat
              then JS.div (JS.ofNat matchedRules) (JS.ofNat totalRules)
              else JS.ofZ 0 in
            RuleEvaluationResult.mk (Template.id template) score
              matchedRules totalRules false false
        end
    end.

(* ================================================================== *)
(** * Template selector                                                *)
(* ================================================================== *)

(** One turn of the [for (const template of activeTemplates)] loop; the
    state is [(required, suggested, optional)]. *)
Definition selectStep (responses : list SurveyResponse.t)
    (computedVariables : option (Record ComputedValue))
    (st : list Template.t * list Template.t * list Template.t)
    (template : Template.t)
  : list Template.t * list Template.t * list Template.t :=
  let '(required, suggested, optional) := st in
  let evaluation := evaluateRules template responses computedVariables in
  if RuleEvaluationResult.isAlwaysInclude evaluation then
    ((required ++ [template])%list, suggested, optional)
  else if RuleEvaluationResult.isManualOnly evaluation then
    (required, suggested, (optional ++ [template])%list)
  else if (RuleEvaluationResult.totalRules evaluation =? 0)%nat then
    (required, suggested, (optional ++ [template])%list)
  else if JS.geb (RuleEvaluationResult.score evaluation) (JS.ofZ 1) then
    ((required ++ [template])%list, suggested, optional)
  else if JS.gtb (RuleEvaluationResult.score evaluation) (JS.Fin (Qmake 1 2)) then
    (required, (suggested ++ [template])%list, optional)
  else
    (required, suggested, (optional ++ [template])%list).

(** [a.displayName || a.name]. *)
Definition displayedName (a : Template.t) : string :=
  if JS.isEmpty (Template.displayName a) then Template.name a
  else Template.displayName a.

Section Selector.

(** [String.prototype.localeCompare] of the host: negative, zero or
    positive. *)
Variable localeCompare : string -> string -> Z.

Definition sortByName (a b : Template.t) : Z :=
  localeCompare (displayedName a) (displayedName b).

Definition selectTemplates (responses : list SurveyResponse.t)
    (templates : list Template.t)
    (computedVariables : option (Record ComputedValue)) : TemplateSelection.t :=
  let activeTemplates := filter Template.isActive templates in
  let '(required, suggested, optional) :=
    fold_left (selectStep responses computedVariables) activeTemplates ([], [], []) in
  TemplateSelection.mk
    (sortBy sortByName required)
    (sortBy sortByName suggested)
    (sortBy sortByName optional).

End Selector.

(* ================================================================== *)
(** * Expression evaluator                                             *)
(* ================================================================== *)

(** A field of a loop item: [string | number | boolean]. *)
Inductive FieldValue : Type :=
| FString (s : string)
| FNumber (n : JS.number)
| FBool (b : bool).

(** A variable of the variable map: a string, or an array of records kept
    for the loops of the templating engine. *)
Inductive VarValue : Type :=
| SVal (s : string)
| AVal (items : list (Record FieldValue)).

Definition Variables : Type := Record VarValue.

(** The names matched by [/\{([^}]+)\}/g], left to right.  [cur] holds the
    name being read (reversed) once a brace is open. *)
Fixpoint scanPlaceholders (s : string) (cur : option string) : list string :=
  match s with
  | EmptyString => []
  | String c r =>
      match cur with
      | None =>
          if Ascii.eqb c "{" then scanPlaceholders r (Some EmptyString)
          else scanPlaceholders r None
      | Some name =>
          if Ascii.eqb c "}" then
            if JS.isEmpty name then scanPlaceholders r None
            else JS.rev name :: scanPlaceholders r None
          else scanPlaceholders r (Some (String c name))
      end
  end.

Definition isDollarOrComma (c : ascii) : bool :=
  Ascii.eqb c "$" || Ascii.eqb c ",".

(** The number put in place of a variable, [value] being what
    [variables[varName]] reads; [None] when [value.replace] throws: an
    array and an inherited function have no [replace]. *)
Definition numericValue (value : Property VarValue) : option JS.number :=
  match value with
  | Undefined => Some (JS.ofZ 0)
  | Own (SVal EmptyString) => Some (JS.ofZ 0)
  | Own (SVal s) =>
      let numValue := JS.parseFloat (JS.removeChars isDollarOrComma s) in
      Some (if JS.isNaN numValue then JS.ofZ 0 else numValue)
  | Own (AVal _) => None
  | Inherited => None
  end.

(** The [matches] array: every placeholder with its number. *)
Fixpoint collectMatches (names : list string) (variables : Variables)
  : option (list (string * JS.number)) :=
  match names with
  | [] => Some []
  | varName :: rest =>
      match numericValue (read variables varName) with
      | None => None
      | Some numValue =>
          match collectMatches rest variables with
          | None => None
          | Some ms => Some ((varName, numValue) :: ms)
          end
      end
  end.

(** [expression.split(placeholder).join(numValue.toString())]. *)
Definition substituteOne (expression : string) (m : string * JS.number) : string :=
  JS.join (JS.toString (snd m)) (JS.split ("{" ++ fst m ++ "}") expression).

Definition substituteAll (formula : string) (ms : list (string * JS.number)) : string :=
  fold_left substituteOne ms formula.

Definition isOperatorChar (c : ascii) : bool :=
  Ascii.eqb c "+" || Ascii.eqb c "-" || Ascii.eqb c "*" || Ascii.eqb c "/".

Definition allowedChar (c : ascii) : bool :=
  JS.isDigit c || JS.isWhiteSpace c || isOperatorChar c ||
  Ascii.eqb c "(" || Ascii.eqb c ")" || Ascii.eqb c ".".

(** [/^[\d\s+\-*/().]+$/.test(expression)]. *)
Definition allowedExpression (expression : string) : bool :=
  negb (JS.isEmpty expression) && JS.allChars allowedChar expression.

Definition isAddSub (c : ascii) : bool := Ascii.eqb c "+" || Ascii.eqb c "-".
Definition isMulDiv (c : ascii) : bool := Ascii.eqb c "*" || Ascii.eqb c "/".

(** The first operator character of [s] that something follows; [acc] is
    what was read before it, reversed. *)
Fixpoint splitAtFirst (isOp : ascii -> bool) (s acc : string)
  : option (string * ascii * string) :=
  match s with
  | EmptyString => None
  | String c r =>
      if isOp c then
        if JS.isEmpty r then None else Some (JS.rev acc, c, r)
      else splitAtFirst isOp r (String c acc)
  end.

(** [expression.match(/(.+?)([+\-])(?!$)(.+)/)] and
    [expression.match(/(.+?)([*/])(.+)/)]: the left part is lazy and not
    empty, so the split is at the first operator from the second character
    on; the right part is the rest. *)
Definition matchLazy (isOp : ascii -> bool) (expression : string)
  : option (string * ascii * string) :=
  match expression with
  | EmptyString => None
  | String c r => splitAtFirst isOp r (String c EmptyString)
  end.

(** [/[+\-*/]$/.test(left)]. *)
Fixpoint endsWithOperator (s : string) : bool :=
  match s with
  | EmptyString => false
  | String c EmptyString => isOperatorChar c
  | String _ r => endsWithOperator r
  end.

Definition isParen (c : ascii) : bool := Ascii.eqb c "(" || Ascii.eqb c ")".

(** [expression.replace(/\(([^()]+)\)/g, (_, inner) => f(inner))].
    [cur] holds what follows the last opening parenthesis (reversed) while
    a group may still close; [f] fails when it runs out of fuel. *)
Fixpoint replaceGroups (f : string -> option string) (s : string)
    (cur : option string) : option string :=
  match s with
  | EmptyString =>
      match cur with
      | None => Some EmptyString
      | Some inner => Some (String "(" (JS.rev inner))
      end
  | String c r =>
      match cur with
      | None =>
          if Ascii.eqb c "(" then replaceGroups f r (Some EmptyString)
          else option_map (String c) (replaceGroups f r None)
      | Some inner =>
          if Ascii.eqb c "(" then
            option_map (fun t => String "(" (JS.rev inner ++ t))
              (replaceGroups f r (Some EmptyString))
          else if Ascii.eqb c ")" then
            if JS.isEmpty inner then
              option_map (fun t => "()" ++ t) (replaceGroups f r None)
            else
              match f (JS.rev inner) with
              | None => None
              | Some v => option_map (fun t => v ++ t) (replaceGroups f r None)
              end
          else replaceGroups f r (Some (String c inner))
      end
  end.

(** [while (expression.includes('(')) expression = expression.replace(...)];
    [None] when the fuel runs out, which is what happens to a loop that no
    replacement can end. *)
Fixpoint resolveParentheses (fuel : nat) (f : string -> option string)
    (expression : string) : option string :=
  if JS.includes expression "(" then
    match fuel with
    | O => None
    | S k =>
        match replaceGroups f expression None with
        | None => None
        | Some e => resolveParentheses k f e
        end
    end
  else Some expression.

(** [parseFloat(expression) || 0]. *)
Definition parseFloatOrZero (expression : string) : JS.number :=
  let x := JS.parseFloat expression in
  if JS.truthy x then x else JS.ofZ 0.

Definition applyAddSub (op : ascii) (l r : JS.number) : JS.number :=
  if Ascii.eqb op "+" then JS.add l r else JS.sub l r.

Definition applyMulDiv (op : ascii) (l r : JS.number) : JS.number :=
  if Ascii.eqb op "*" then JS.mul l r else JS.div l r.

(** [evaluateMathExpression]; [None] when [fuel] nested calls and loop
    turns do not suffice. *)
Fixpoint evaluateMathExpression (fuel : nat) (expression : string)
  : option JS.number :=
  match fuel with
  | O => None
  | S k =>
      let expression := JS.removeChars JS.isWhiteSpace expression in
      let inner s := option_map JS.toString (evaluateMathExpression k s) in
      match resolveParentheses k inner expression with
      | None => None
      | Some expression =>
          let mulDiv :=
            match matchLazy isMulDiv expression with
            | Some (lhs, operator, rhs) =>
                match evaluateMathExpression k lhs, evaluateMathExpression k rhs with
                | Some leftVal, Some rightVal =>
                    Some (applyMulDiv operator leftVal rightVal)
                | _, _ => None
                end
            | None => Some (parseFloatOrZero expression)
            end in
          match matchLazy isAddSub expression with
          | Some (lhs, operator, rhs) =>
              if negb (endsWithOperator lhs) then
                match evaluateMathExpression k lhs, evaluateMathExpression k rhs with
                | Some leftVal, Some rightVal =>
                    Some (applyAddSub operator leftVal rightVal)
                | _, _ => None
                end
              else mulDiv
          | None => mulDiv
          end
      end
  end.

(** [evaluateFormula]; every exception is caught and answered by [''].
    [None] only when the fuel given to [evaluateMathExpression] runs out. *)
Definition evaluateFormula (fuel : nat) (formula : string) (variables : Variables)
  : option string :=
  if JS.isEmpty formula || JS.isEmpty (JS.trim formula) then Some ""
  else
    match collectMatches (scanPlaceholders formula None) variables with
    | None => Some ""
    | Some ms =>
        let expression := substituteAll formula ms in
        if negb (allowedExpression expression) then Some ""
        else
          match evaluateMathExpression fuel expression with
          | None => None
          | Some result =>
              if JS.isNaN result || negb (JS.isFinite result) then Some ""
              else Some (JS.toString result)
          end
    end.

(* ================================================================== *)
(** * Value and list formatters                                        *)
(* ================================================================== *)

(** An argument of type [number | string]. *)
Inductive NumberOrString : Type :=
| IsNumber (n : JS.number)
| IsString (s : string).

(** The class [[^0-9.-]]. *)
Definition notNumberChar (c : ascii) : bool :=
  negb (JS.isDigit c || Ascii.eqb c "." || Ascii.eqb c "-").

(** [s.indexOf(c)], [None] for -1. *)
Fixpoint indexOfChar (c : ascii) (s : string) : option nat :=
  match s with
  | EmptyString => None
  | String a r => if Ascii.eqb a c then Some 0 else option_map S (indexOfChar c r)
  end.

Definition formatNumberWithComma (num : NumberOrString) : string :=
  let n := match num with
           | IsString s => JS.parseFloat (JS.removeChars notNumberChar s)
           | IsNumber n => n
           end in
  if JS.isNaN n then "0"
  else
    let numStr := JS.toString n in
    let decimalPlaces :=
      match indexOfChar "." numStr with
      | Some decimalIndex => String.length numStr - decimalIndex - 1
      | None => 0
      end in
    if (decimalPlaces <=? 2)%nat then JS.toLocaleString n 0 3
    else JS.toLocaleString n decimalPlaces decimalPlaces.

(** [formatCurrency(value)], [None] standing for [undefined]. *)
Definition formatCurrency (value : option NumberOrString) : string :=
  match value with
  | None => "$0"
  | Some (IsString EmptyString) => "$0"
  | Some v =>
      let num := match v with
                 | IsString s => JS.parseFloat (JS.removeChars notNumberChar s)
                 | IsNumber n => n
                 end in
      if JS.isNaN num then "$0" else "$" ++ formatNumberWithComma (IsNumber num)
  end.

(** [toTitleCase(text)] on a string. *)
Definition toTitleCase (text : string) : string :=
  if JS.isEmpty text then ""
  else JS.join " " (map JS.upperFirst (JS.split " " (JS.toLowerCase text))).

Definition capitalizeWord (word : string) : string :=
  if JS.isEmpty word then ""
  else if String.eqb word (JS.toUpperCase word) && (String.length word <=? 4)%nat then word
  else JS.upperFirst word.

(** [capitalize(text)] on a string. *)
Definition capitalize (text : string) : string :=
  if JS.isEmpty text then ""
  else JS.join " " (map capitalizeWord (JS.split " " text)).

(** [items[items.length - 1]] and [items.slice(0, -1)]. *)
Definition lastItem (items : list string) : string := List.last items "".
Definition withoutLast (items : list string) : list string := List.removelast items.

Definition formatListWith (connector : string) (items : list string) : string :=
  match items with
  | [] => ""
  | [a] => a
  | [a; b] => a ++ " " ++ connector ++ " " ++ b
  | _ => JS.join ", " (withoutLast items) ++ ", " ++ connector ++ " " ++ lastItem items
  end.

Definition formatListAnd (items : list string) : string := formatListWith "and" items.
Definition formatListOr (items : list string) : string := formatListWith "or" items.

Definition formatListComma (items : list string) : string :=
  match items with [] => "" | _ => JS.join ", " items end.

(** The flag idiom of the engine: [cond ? 'true' : '']. *)
Definition flag (cond : bool) : string := if cond then "true" else "".

(** The loop array of [generateArrayHelperVariables]. *)
Fixpoint helperItems (items : list string) (index : nat) : list (Record FieldValue) :=
  match items with
  | [] => []
  | item :: rest =>
      [ ("value", FString item);
        ("isFirst", FBool (index =? 0)%nat);
        ("isLast", FBool (match rest with [] => true | _ => false end));
        ("index", FNumber (JS.ofNat (index + 1))) ]
      :: helperItems rest (S index)
  end.

(** [items.forEach((item, index) => result[baseName + (index + 1)] = item)]. *)
Fixpoint setIndexed (result : Variables) (baseName : string) (items : list string)
    (index : nat) : Variables :=
  match items with
  | [] => result
  | item :: rest =>
      setIndexed
        (set result (baseName ++ JS.intToString (Z.of_nat (index + 1))) (SVal item))
        baseName rest (S index)
  end.

Definition generateArrayHelperVariables (baseName : string) (items : list string)
  : Variables :=
  let result : Variables := [] in
  let capitalizedName := JS.upperFirst baseName in
  let n := List.length items in
  let result := set result (baseName ++ "Count") (SVal (JS.intToString (Z.of_nat n))) in
  let result := set result (baseName ++ "Formatted") (SVal (formatListAnd items)) in
  let result := set result (baseName ++ "List") (SVal (formatListComma items)) in
  let result := set result (baseName ++ "OrList") (SVal (formatListOr items)) in
  let result :=
    match items with
    | [] => result
    | first :: _ =>
        set (set result (baseName ++ "First") (SVal first))
          (baseName ++ "Last") (SVal (lastItem items))
    end in
  let result := set result ("hasMultiple" ++ capitalizedName) (SVal (flag (2 <=? n)%nat)) in
  let result := set result ("hasSingle" ++ capitalizedName) (SVal (flag (n =? 1)%nat)) in
  let result := set result ("hasNo" ++ capitalizedName) (SVal (flag (n =? 0)%nat)) in
  let result := setIndexed result baseName items 0 in
  set result baseName (AVal (helperItems items 0)).

(* ================================================================== *)
(** * Calendar dates                                                   *)
(* ================================================================== *)

(** A [Date] object seen through its local-time getters: [getFullYear()],
    [getMonth()] (0 to 11) and [getDate()].  The time of day plays no part
    in the code below. *)
Module Date.
Record t : Type := mk { year : Z; month : Z; day : Z }.
End Date.

Definition isLeapYear (y : Z) : bool :=
  ((y mod 4 =? 0) && negb (y mod 100 =? 0) || (y mod 400 =? 0))%Z.

(** Days of month [m] (0 to 11) of year [y]. *)
Definition daysInMonth (y m : Z) : Z :=
  if (m =? 1)%Z then (if isLeapYear y then 29 else 28)%Z
  else if ((m =? 3) || (m =? 5) || (m =? 8) || (m =? 10))%Z then 30%Z
  else 31%Z.

(** Days from 1970-01-01 to the given day of the proleptic Gregorian
    calendar (the year starts in March for the count). *)
Definition daysFromCivil (d : Date.t) : Z :=
  let m := (Date.month d + 1)%Z in
  let y := (if (m <=? 2)%Z then Date.year d - 1 else Date.year d)%Z in
  let era := (y / 400)%Z in
  let yoe := (y - era * 400)%Z in
  let mp := ((m + 9) mod 12)%Z in
  let doy := ((153 * mp + 2) / 5 + Date.day d - 1)%Z in
  let doe := (yoe * 365 + yoe / 4 - yoe / 100 + doy)%Z in
  (era * 146097 + doe - 719468)%Z.

(** [d.getDay()]: 0 is Sunday, 6 is Saturday. *)
Definition getDay (d : Date.t) : Z := ((daysFromCivil d + 4) mod 7)%Z.

Definition nextDay (d : Date.t) : Date.t :=
  if (Date.day d <? daysInMonth (Date.year d) (Date.month d))%Z then
    Date.mk (Date.year d) (Date.month d) (Date.day d + 1)
  else if (Date.month d =? 11)%Z then Date.mk (Date.year d + 1) 0 1
  else Date.mk (Date.year d) (Date.month d + 1) 1.

Definition prevDay (d : Date.t) : Date.t :=
  if (1 <? Date.day d)%Z then
    Date.mk (Date.year d) (Date.month d) (Date.day d - 1)
  else if (Date.month d =? 0)%Z then Date.mk (Date.year d - 1) 11 31
  else Date.mk (Date.year d) (Date.month d - 1)
         (daysInMonth (Date.year d) (Date.month d - 1)).

Fixpoint iterate {A : Type} (f : A -> A) (n : nat) (x : A) : A :=
  match n with O => x | S k => iterate f k (f x) end.

(** [MakeDay(year, month, date)]: months and days out of range carry into
    the neighbouring months and years. *)
Definition makeDay (year month date : Z) : Date.t :=
  let first := Date.mk (year + month / 12) (month mod 12) 1 in
  if (1 <=? date)%Z then iterate nextDay (Z.to_nat (date - 1)) first
  else iterate prevDay (Z.to_nat (1 - date)) first.

(** A time value is kept within 100,000,000 days of the epoch; beyond, the
    [Date] is invalid. *)
Definition inDateRange (d : Date.t) : bool :=
  (Z.abs (daysFromCivil d) <=? 100000000)%Z.

(** [new Date(year, monthIndex, date)]: a year from 0 to 99 stands for
    1900 + year.  [None] is the invalid date. *)
Definition newDate (year month date : Z) : option Date.t :=
  let y := (if (0 <=? year) && (year <=? 99) then 1900 + year else year)%Z in
  let d := makeDay y month date in
  if inDateRange d then Some d else None.

(** [d.setDate(n)]. *)
Definition setDate (d : Date.t) (n : Z) : Date.t :=
  makeDay (Date.year d) (Date.month d) n.

Definition isWeekend (d : Date.t) : bool :=
  ((getDay d =? 0) || (getDay d =? 6))%Z.

(** [while (d.getDay() === 0 || d.getDay() === 6) d.setDate(d.getDate() - 1)];
    [None] when [fuel] turns do not end the loop. *)
Fixpoint skipWeekend (fuel : nat) (d : Date.t) : option Date.t :=
  if isWeekend d then
    match fuel with
    | O => None
    | S k => skipWeekend k (setDate d (Date.day d - 1))
    end
  else Some d.

Definition MONTH_NAMES_EN : list string :=
  ["January"; "February"; "March"; "April"; "May"; "June";
   "July"; "August"; "September"; "October"; "November"; "December"].

Definition MONTH_NAMES_SHORT : list string :=
  ["Jan"; "Feb"; "Mar"; "Apr"; "May"; "Jun";
   "Jul"; "Aug"; "Sep"; "Oct"; "Nov"; "Dec"].

(** [s.replace(pat, rep)] with a string pattern: the first occurrence only. *)
Fixpoint replaceFirst (pat rep s : string) : string :=
  if JS.startsWith pat s then rep ++ JS.dropStr (String.length pat) s
  else
    match s with
    | EmptyString => EmptyString
    | String c r => String c (replaceFirst pat rep r)
    end.

Definition pad (n : Z) : string := JS.padStart2 (JS.intToString n).

(** The body of [formatDate] once the [Date] is valid. *)
Definition formatDateObject (date : Date.t) (format : string) : string :=
  let year := Date.year date in
  let month := (Date.month date + 1)%Z in
  let day := Date.day date in
  let monthShort := nth (Z.to_nat (month - 1)) MONTH_NAMES_SHORT "undefined" in
  let monthLong := nth (Z.to_nat (month - 1)) MONTH_NAMES_EN "undefined" in
  if String.eqb format "YYYY-MM-DD" then
    JS.intToString year ++ "-" ++ pad month ++ "-" ++ pad day
  else if String.eqb format "YYYY년 MM월 DD일" then
    JS.intToString year ++ "년 " ++ pad month ++ "월 " ++ pad day ++ "일"
  else if String.eqb format "MM/DD/YYYY" then
    pad month ++ "/" ++ pad day ++ "/" ++ JS.intToString year
  else if String.eqb format "MMM D, YYYY" then
    monthShort ++ " " ++ JS.intToString day ++ ", " ++ JS.intToString year
  else if String.eqb format "YYYY.MM.DD" then
    JS.intToString year ++ "." ++ pad month ++ "." ++ pad day
  else if String.eqb format "DD/MM/YYYY" then
    pad day ++ "/" ++ pad month ++ "/" ++ JS.intToString year
  else
    replaceFirst "D" (JS.intToString day)
      (replaceFirst "M" (JS.intToString month)
        (replaceFirst "MMM" monthShort
          (replaceFirst "MMMM" monthLong
            (replaceFirst "DD" (pad day)
              (replaceFirst "MM" (pad month)
                (replaceFirst "YYYY" (JS.intToString year) format)))))).

Section HostDates.

(** [new Date(s)] of the host, read in local time; [None] is the invalid
    date. *)
Variable parseDate : string -> option Date.t.

(** [formatDate(value, format)] on a string. *)
Definition formatDate (value : string) (format : string) : string :=
  if JS.isEmpty value then ""
  else
    match parseDate value with
    | None => value
    | Some date => formatDateObject date format
    end.

End HostDates.

(* ================================================================== *)
(** * Stages of [transformSurveyToVariables]                           *)
(* ================================================================== *)

(** Truthiness of [result[key]]: [undefined] and [''] are falsy, an array
    is truthy. *)
Definition truthyVar (v : option VarValue) : bool :=
  match v with
  | Some (SVal s) => negb (JS.isEmpty s)
  | Some (AVal _) => true
  | None => false
  end.

(** Truthiness of [response.value]. *)
Definition truthyAnswer (v : AnswerValue) : bool :=
  match v with
  | VText s => negb (JS.isEmpty s)
  | _ => true
  end.

(** [Array.isArray(value) && value.length > 0 && typeof value[0] === 'object']. *)
Definition isRepeatingGroup (v : AnswerValue) : bool :=
  match v with
  | VGroup (_ :: _) => true
  | _ => false
  end.

(** [typeof rawValue === 'string' ? rawValue
     : Array.isArray(rawValue) && rawValue.length > 0 ? String(rawValue[0]) : dflt]. *)
Definition scalarOf (rawValue : AnswerValue) (dflt : string) : string :=
  match rawValue with
  | VText s => s
  | VList (x :: _) => x
  | VGroup (_ :: _) => "[object Object]"
  | _ => dflt
  end.

(** [result[dst] = result[src]]. *)
Definition copyVar (result : Variables) (dst src : string) : Variables :=
  match get result src with
  | Some v => set result dst v
  | None => result
  end.

Definition nthPart (parts : list string) (i : nat) : option Z :=
  match nth_error parts i with
  | Some p => JS.parseInt p
  | None => None
  end.

Section Engine.

Variable parseDate : string -> option Date.t.

(** [d.toISOString()] of the host. *)
Variable toISOString : Date.t -> string.

(** *** Stage 3b: [cashin] and [SHSIGNDate] (lines 1086-1153) *)

(** [cashinYear], [cashinMonth] (0-indexed) and [dayOfMonth]; [None] when
    one of them is NaN. *)
Definition cashinFields (cashinValue : string) : option (Z * Z * Z) :=
  if JS.includes cashinValue "-" then
    let dateParts := JS.split "-" cashinValue in
    match nthPart dateParts 0, nthPart dateParts 1, nthPart dateParts 2 with
    | Some y, Some m, Some d => Some (y, (m - 1)%Z, d)
    | _, _, _ => None
    end
  else
    match parseDate cashinValue with
    | Some parsedDate =>
        Some (Date.year parsedDate, Date.month parsedDate, Date.day parsedDate)
    | None => None
    end.

(** The month whose last business day is looked for. *)
Definition targetOf (fields : Z * Z * Z) : Z * Z :=
  let '(cashinYear, cashinMonth, dayOfMonth) := fields in
  let targetMonth := (if (dayOfMonth <? 15) then cashinMonth else cashinMonth + 1)%Z in
  if (11 <? targetMonth)%Z then ((cashinYear + 1)%Z, 0%Z)
  else (cashinYear, targetMonth).

(** What became of [lastDayOfMonth]. *)
Inductive Walk : Type :=
| Walked (d : Date.t)      (* the loop ended on [d] *)
| Thrown                   (* invalid date: [toISOString] throws *)
| OutOfFuel.

Definition lastBusinessDay (fuel : nat) (target : Z * Z) : Walk :=
  let '(targetYear, targetMonth) := target in
  match newDate targetYear (targetMonth + 1) 0 with
  | None => Thrown
  | Some lastDayOfMonth =>
      match skipWeekend fuel lastDayOfMonth with
      | Some d => Walked d
      | None => OutOfFuel
      end
  end.

Definition setSHSIGNDate (result : Variables) (d : Date.t) : Variables :=
  let iso := toISOString d in
  let result := set result "SHSIGNDate" (SVal (formatDate parseDate iso "MMM D, YYYY")) in
  let result := set result "SHSIGNDateShort" (SVal (formatDate parseDate iso "MM/DD/YYYY")) in
  set result "SHSIGNDateISO" (SVal (formatDate parseDate iso "YYYY-MM-DD")).

(** [None] only when the weekend loop is not over after [fuel] turns. *)
Definition stageCashin (fuel : nat) (responses : list SurveyResponse.t)
    (result : Variables) : option Variables :=
  match findResponse responses "cashin" with
  | None => Some result
  | Some cashinResponse =>
      if negb (truthyAnswer (SurveyResponse.value cashinResponse)) then Some result
      else
        let cashinValue := scalarOf (SurveyResponse.value cashinResponse) "" in
        if JS.isEmpty cashinValue then Some result
        else
          let result := set result "cashin" (SVal (formatDate parseDate cashinValue "MMM D, YYYY")) in
          let result := copyVar result "Cashin" "cashin" in
          let result := set result "cashinShort" (SVal (formatDate parseDate cashinValue "MM/DD/YYYY")) in
          let result := set result "cashinISO" (SVal (formatDate parseDate cashinValue "YYYY-MM-DD")) in
          match cashinFields cashinValue with
          | None => Some result
          | Some fields =>
              match lastBusinessDay fuel (targetOf fields) with
              | Walked d => Some (setSHSIGNDate result d)
              | Thrown => Some result
              | OutOfFuel => None
              end
          end
  end.

(** *** Stage 4: company address (lines 1155-1176) *)

(** [typeof r?.value === 'string' ? r.value.trim() : '']. *)
Definition trimmedText (r : option SurveyResponse.t) : string :=
  match r with
  | Some r =>
      match SurveyResponse.value r with
      | VText s => JS.trim s
      | _ => ""
      end
  | None => ""
  end.

Definition stageCompanyAddress (responses : list SurveyResponse.t)
    (result : Variables) : Variables :=
  let hasUSAddress :=
    match findResponse responses "hasUSAddress" with
    | Some r =>
        match SurveyResponse.value r with
        | VText s => String.eqb s "yes"
        | _ => false
        end
    | None => false
    end in
  let usAddress := trimmedText (findResponse responses "usAddress") in
  let krAddress := trimmedText (findResponse responses "krAddress") in
  let companyAddress :=
    if hasUSAddress && negb (JS.isEmpty usAddress) then usAddress else krAddress in
  let result := set result "companyAddress" (SVal companyAddress) in
  let result := set result "CompanyAddress" (SVal companyAddress) in
  let result := set result "usAddress" (SVal usAddress) in
  let result := set result "USAddress" (SVal usAddress) in
  let result := set result "krAddress" (SVal krAddress) in
  let result := set result "KRAddress" (SVal krAddress) in
  set result "hasUSAddress" (SVal (flag hasUSAddress)).

(** *** Stage 4b: one variable per scalar answer (lines 1178-1221) *)

Definition companyNameFields : list string :=
  ["companyname"; "companyname1"; "companyname2"; "companyname3";
   "corporationname"; "businessname"; "entityname"].

Definition personNameFields : list string :=
  ["ceoname"; "cfoname"; "csname"; "agentname"; "registeredagentname";
   "incorporatorname"].

Definition autoVariable (result : Variables) (response : SurveyResponse.t)
  : Variables :=
  let questionId := SurveyResponse.questionId response in
  let value := SurveyResponse.value response in
  if JS.startsWith "__" questionId then result
  else if isRepeatingGroup value then result
  else
    match value with
    | VText value =>
        let questionIdLower := JS.toLowerCase questionId in
        let formattedValue :=
          if existsb (String.eqb questionIdLower) companyNameFields then capitalize value
          else if existsb (String.eqb questionIdLower) personNameFields then toTitleCase value
          else value in
        let result := set result questionId (SVal formattedValue) in
        set result (JS.upperFirst questionId) (SVal formattedValue)
    | VList stringArray =>
        let result := set result questionId (SVal (JS.join ", " stringArray)) in
        let result := set result (questionId ++ "List") (SVal (JS.join ", " stringArray)) in
        let result := set result (questionId ++ "Formatted") (SVal (formatListAnd stringArray)) in
        copyVar result (JS.upperFirst questionId) questionId
    | VGroup _ =>
        (* the empty array *)
        let result := set result questionId (SVal "") in
        let result := set result (questionId ++ "List") (SVal "") in
        let result := set result (questionId ++ "Formatted") (SVal "") in
        copyVar result (JS.upperFirst questionId) questionId
    end.

Definition stageAutoVariables (responses : list SurveyResponse.t)
    (result : Variables) : Variables :=
  fold_left autoVariable responses result.

(** *** Stage 5, head of the loop body: count and flags of a repeating
    group (lines 1238-1244) *)

Definition groupCountAndFlags (baseName : string)
    (groupItems : list (Record string)) (result : Variables) : Variables :=
  let n := List.length groupItems in
  let result := set result (baseName ++ "Count") (SVal (JS.intToString (Z.of_nat n))) in
  let capitalizedName := JS.upperFirst baseName in
  let result := set result ("hasMultiple" ++ capitalizedName) (SVal (flag (2 <=? n)%nat)) in
  set result ("hasSingle" ++ capitalizedName) (SVal (flag (n =? 1)%nat)).

(** *** Stage 10: fallback share of each founder (lines 1876-1906) *)

(** [parseFloat((result[key] || '0').replace(/[$,]/g, ''))]; [None] when
    [result[key]] is an array, on which [replace] throws. *)
Definition amountOf (v : option VarValue) : option JS.number :=
  match v with
  | Some (AVal _) => None
  | Some (SVal s) =>
      Some (JS.parseFloat (JS.removeChars isDollarOrComma (if JS.isEmpty s then "0" else s)))
  | None => Some (JS.parseFloat "0")
  end.

Definition founderKey (i : nat) (suffix : string) : string :=
  "Founder" ++ JS.intToString (Z.of_nat i) ++ suffix.

Definition fallbackFounder1 (result : Variables) : option Variables :=
  if negb (truthyVar (get result "Founder1Share"))
     && truthyVar (get result "Founder1Cash") && truthyVar (get result "FMV") then
    match amountOf (get result "Founder1Cash"), amountOf (get result "FMV") with
    | Some founder1CashNum, Some fmvNum =>
        if negb (JS.isNaN founder1CashNum) && negb (JS.isNaN fmvNum)
           && negb (JS.eqb fmvNum (JS.ofZ 0)) then
          let shareCount := JS.div founder1CashNum fmvNum in
          Some (set result "Founder1Share" (SVal (formatNumberWithComma (IsNumber shareCount))))
        else Some result
    | _, _ => None
    end
  else Some result.

(** The body of [for (let i = 2; i <= 9; i++)]. *)
Definition fallbackFounder (i : nat) (result : Variables) : option Variables :=
  let cashKey := founderKey i "Cash" in
  let shareKey := founderKey i "Share" in
  if negb (truthyVar (get result shareKey))
     && truthyVar (get result cashKey) && truthyVar (get result "FMV") then
    match amountOf (get result cashKey), amountOf (get result "FMV") with
    | Some founderCashNum, Some fmvNum =>
        if negb (JS.isNaN founderCashNum) && negb (JS.isNaN fmvNum)
           && negb (JS.eqb fmvNum (JS.ofZ 0)) && JS.gtb founderCashNum (JS.ofZ 0) then
          let shareCount := JS.div founderCashNum fmvNum in
          Some (set result shareKey (SVal (formatNumberWithComma (IsNumber shareCount))))
        else Some result
    | _, _ => None
    end
  else Some result.

(** A loop whose body may throw. *)
Fixpoint forEach {A S : Type} (body : A -> S -> option S) (l : list A) (s : S)
  : option S :=
  match l with
  | [] => Some s
  | x :: r =>
      match body x s with
      | Some s' => forEach body r s'
      | None => None
      end
  end.

(** [None] when a [TypeError] leaves the function. *)
Definition stageFallbackShares (result : Variables) : option Variables :=
  match fallbackFounder1 result with
  | Some result => forEach fallbackFounder [2; 3; 4; 5; 6; 7; 8; 9]%nat result
  | None => None
  end.

(** *** Stage 10b: [cashSum] and [shareSum] (lines 1908-1941) *)

Definition isComma (c : ascii) : bool := Ascii.eqb c ",".

(** [parseFloat((result[key] || '0').replace(/,/g, ''))]. *)
Definition shareAmountOf (v : option VarValue) : option JS.number :=
  match v with
  | Some (AVal _) => None
  | Some (SVal s) =>
      Some (JS.parseFloat (JS.removeChars isComma (if JS.isEmpty s then "0" else s)))
  | None => Some (JS.parseFloat "0")
  end.

(** The body of [for (let i = 1; i <= 9; i++)]; the state is
    [(totalCash, totalShare)]. *)
Definition sumFounder (result : Variables) (i : nat) (st : JS.number * JS.number)
  : option (JS.number * JS.number) :=
  let '(totalCash, totalShare) := st in
  let cashKey := founderKey i "Cash" in
  let shareKey := founderKey i "Share" in
  let afterCash :=
    if truthyVar (get result cashKey) then
      match amountOf (get result cashKey) with
      | Some cashNum =>
          Some (if negb (JS.isNaN cashNum) then JS.add totalCash cashNum else totalCash)
      | None => None
      end
    else Some totalCash in
  match afterCash with
  | None => None
  | Some totalCash =>
      if truthyVar (get result shareKey) then
        match shareAmountOf (get result shareKey) with
        | Some shareNum =>
            Some (totalCash,
                  if negb (JS.isNaN shareNum) then JS.add totalShare shareNum
                  else totalShare)
        | None => None
        end
      else Some (totalCash, totalShare)
  end.

Definition founderTotals (result : Variables) : option (JS.number * JS.number) :=
  forEach (sumFounder result) [1; 2; 3; 4; 5; 6; 7; 8; 9]%nat (JS.ofZ 0, JS.ofZ 0).

Definition stageSums (result : Variables) : option Variables :=
  match founderTotals result with
  | None => None
  | Some (totalCash, totalShare) =>
      let result := set result "cashSum" (SVal ("$" ++ formatNumberWithComma (IsNumber totalCash))) in
      let result := copyVar result "CashSum" "cashSum" in
      let result := copyVar result "CASHSUM" "cashSum" in
      let result := set result "shareSum" (SVal (formatNumberWithComma (IsNumber totalShare))) in
      let result := copyVar result "ShareSum" "shareSum" in
      Some (copyVar result "SHARESUM" "shareSum")
  end.

(** *** Stage 10d: the [share] field of the [founders] loop array
    (lines 1970-1991) *)

Definition truthyField (v : option FieldValue) : bool :=
  match v with
  | Some (FString s) => negb (JS.isEmpty s)
  | Some (FNumber n) => JS.truthy n
  | Some (FBool b) => b
  | None => false
  end.

Definition fieldToString (v : FieldValue) : string :=
  match v with
  | FString s => s
  | FNumber n => JS.toString n
  | FBool b => if b then "true" else "false"
  end.

Definition addShare (fmvNum : JS.number) (founder : Record FieldValue)
  : Record FieldValue :=
  match get founder "cash" with
  | Some cashVal =>
      if truthyField (Some cashVal) then
        let cashNum := JS.parseFloat (JS.removeChars isDollarOrComma (fieldToString cashVal)) in
        if negb (JS.isNaN cashNum) && JS.gtb cashNum (JS.ofZ 0) then
          let shareCount := JS.floor (JS.div cashNum fmvNum) in
          set founder "share" (FString (formatNumberWithComma (IsNumber shareCount)))
        else set founder "share" (FString "0")
      else set founder "share" (FString "0")
  | None => set founder "share" (FString "0")
  end.

(** [None] when a [TypeError] leaves the function. *)
Definition stageFounderShares (result : Variables) : option Variables :=
  if truthyVar (get result "founders") && truthyVar (get result "FMV") then
    match amountOf (get result "FMV") with
    | None => None
    | Some fmvNum =>
        if JS.gtb fmvNum (JS.ofZ 0) then
          match get result "founders" with
          | Some (AVal foundersArray) =>
              Some (set result "founders" (AVal (map (addShare fmvNum) foundersArray)))
          | _ => None     (* a string has no [forEach] *)
          end
        else Some result
    end
  else Some result.

(** *** Stage 12: the stock-option flag (lines 2026-2041) *)

Definition stageStockOption (responses : list SurveyResponse.t)
    (result : Variables) : Variables :=
  match find (fun r => String.eqb (SurveyResponse.questionId r) "stockOption"
                       || String.eqb (SurveyResponse.questionId r) "StockOption")
             responses with
  | None => result
  | Some stockOptionResponse =>
      if negb (truthyAnswer (SurveyResponse.value stockOptionResponse)) then result
      else
        let stockOptionValue :=
          match SurveyResponse.value stockOptionResponse with
          | VText s => JS.toLowerCase s
          | _ => ""
          end in
        let hasStockOption :=
          existsb (String.eqb stockOptionValue) ["yes"; "true"; "1"; "y"] in
        let result := set result "hasStockOption" (SVal (flag hasStockOption)) in
        let result := copyVar result "HasStockOption" "hasStockOption" in
        let result := set result "stockOption" (SVal stockOptionValue) in
        set result "StockOption" (SVal stockOptionValue)
  end.

End Engine.

(** *** [computeVariablesFromResponses] (lines 2167-2203) *)

(** [item['type']?.toLowerCase() === 'corporation']. *)
Definition isCorporation (item : Record string) : bool :=
  match get item "type" with
  | Some ty => String.eqb (JS.toLowerCase ty) "corporation"
  | None => false
  end.

Definition computeGroup (computed : Record ComputedValue) (response : SurveyResponse.t)
  : Record ComputedValue :=
  match SurveyResponse.value response with
  | VGroup (first :: others) =>
      let groupItems := first :: others in
      let baseName := SurveyResponse.questionId response in
      let n := List.length groupItems in
      let computed := set computed (baseName ++ "Count") (CNumber (JS.ofNat n)) in
      let capitalizedName := JS.upperFirst baseName in
      let computed := set computed ("hasMultiple" ++ capitalizedName) (CString (flag (2 <=? n)%nat)) in
      let computed := set computed ("hasSingle" ++ capitalizedName) (CString (flag (n =? 1)%nat)) in
      if String.eqb baseName "founders" then
        let individualFounders := filter (fun item => negb (isCorporation item)) groupItems in
        let corporationFounders := filter isCorporation groupItems in
        let computed := set computed "individualFoundersCount"
                          (CNumber (JS.ofNat (List.length individualFounders))) in
        let computed := set computed "corporationFoundersCount"
                          (CNumber (JS.ofNat (List.length corporationFounders))) in
        let computed := set computed "hasIndividualFounder"
                          (CString (flag (1 <=? List.length individualFounders)%nat)) in
        set computed "hasCorporationFounder"
          (CString (flag (1 <=? List.length corporationFounders)%nat))
      else computed
  | _ => computed
  end.

Definition computeVariablesFromResponses (responses : list SurveyResponse.t)
  : Record ComputedValue :=
  fold_left computeGroup responses [].

(** *** Stage 13: the computed variables join the map (lines 2043-2049) *)

Definition mergeComputed (result : Variables) (entry : string * ComputedValue)
  : Variables :=
  match get result (fst entry) with
  | None => set result (fst entry) (SVal (computedToString (snd entry)))
  | Some _ => result
  end.

Definition stageComputed (responses : list SurveyResponse.t) (result : Variables)
  : Variables :=
  fold_left mergeComputed (computeVariablesFromResponses responses) result.

(** *** Stage 14: [createCaseVariations] (lines 2064-2105) *)

(** Truthiness of [result[k]]: a name that is only inherited reads a
    function, which is truthy. *)
Definition truthyProperty (p : Property VarValue) : bool :=
  match p with
  | Own v => truthyVar (Some v)
  | Inherited => true
  | Undefined => false
  end.

(** [if (!result[k]) result[k] = strValue]. *)
Definition setAlias (result : Variables) (k : string) (strValue : string) : Variables :=
  if negb (truthyProperty (read result k)) then set result k (SVal strValue) else result.

Definition caseVariations (result : Variables) (entry : string * VarValue) : Variables :=
  let '(key, value) := entry in
  match value with
  | AVal _ => set result key value
  | SVal strValue =>
      let result := set result key (SVal strValue) in
      let result := setAlias result (JS.toLowerCase key) strValue in
      let result := setAlias result (JS.toUpperCase key) strValue in
      let result := setAlias result (JS.upperFirst key) strValue in
      setAlias result (JS.lowerFirst key) strValue
  end.

(** [variables] is an object built by assignments, so that [__proto__] is
    not among its keys. *)
Definition createCaseVariations (variables : Variables) : Variables :=
  fold_left caseVariations variables [].

(* ================================================================== *)
(** * Vocabulary of the statements                                     *)
(* ================================================================== *)

(** [template.rules || []]. *)
Definition rulesOf (template : Template.t) : list SelectionRule.t :=
  match Template.rules template with Some r => r | None => [] end.

(** A rule counts as matched: it has a condition and its conditions hold. *)
Definition ruleMatches (responses : list SurveyResponse.t)
    (computedVariables : option (Record ComputedValue)) (rule : SelectionRule.t) : bool :=
  hasConditions rule && conditionsMet rule responses computedVariables.

(** A rule without its priority. *)
Definition forgetPriority (rule : SelectionRule.t) : SelectionRule.t :=
  SelectionRule.mk (SelectionRule.conditions rule) (SelectionRule.logicalOperator rule)
    0 (SelectionRule.isAlwaysInclude rule) (SelectionRule.isManualOnly rule).

(** The three buckets of the selector, as predicates on an evaluation. *)
Definition goesToRequired (e : RuleEvaluationResult.t) : bool :=
  RuleEvaluationResult.isAlwaysInclude e
  || JS.geb (RuleEvaluationResult.score e) (JS.ofZ 1).

Definition goesToSuggested (e : RuleEvaluationResult.t) : bool :=
  JS.gtb (RuleEvaluationResult.score e) (JS.Fin (Qmake 1 2))
  && JS.ltb (RuleEvaluationResult.score e) (JS.ofZ 1).

Definition goesToOptional (e : RuleEvaluationResult.t) : bool :=
  negb (goesToRequired e) && negb (goesToSuggested e).

(** The score as [evaluateRules] computes it from the two counts. *)
Definition scoreOf (matched total : nat) : JS.number :=
  if (0 <? total)%nat then JS.div (JS.ofNat matched) (JS.ofNat total) else JS.ofZ 0.

(** [g] answers wherever [f] does, and the same. *)
Definition extends {A B : Type} (f g : A -> option B) : Prop :=
  forall a b, f a = Some b -> g a = Some b.

(** An unsigned numeral without exponent: digits and dots, not empty. *)
Definition plainChar (c : ascii) : bool := JS.isDigit c || Ascii.eqb c ".".

Definition plainNumeral (s : string) : bool :=
  negb (JS.isEmpty s) && JS.allChars plainChar s.

(** Membership of a character in a string. *)
Fixpoint occursIn (c : ascii) (s : string) : Prop :=
  match s with
  | EmptyString => False
  | String a r => a = c \/ occursIn c r
  end.

(** The four case variants of a key. *)
Definition variantsOf (k : string) : list string :=
  [JS.toLowerCase k; JS.toUpperCase k; JS.upperFirst k; JS.lowerFirst k].

(** The invariant of the variable map as the specification words it: every
    string-valued key of the final map has its four variants in the map,
    bound to the same value. *)
Definition variantsShareValue (variables : Variables) : Prop :=
  let result := createCaseVariations variables in
  forall k v, get result k = Some (SVal v) ->
    forall k', In k' (variantsOf k) -> get result k' = Some (SVal v).

(** No key of the map other than [k] is [k'] or has [k'] among its
    variants. *)
Definition onlyVariantOf (variables : Variables) (k k' : string) : Prop :=
  forall k2 x, In (k2, x) variables -> k2 <> k ->
    k' <> k2 /\ ~ In k' (variantsOf k2).

(** The last day of month [m] of year [y] that is neither a Saturday nor a
    Sunday: the month end, or one or two days before it. *)
Definition lastWeekday (y m : Z) : Z :=
  let n := daysInMonth y m in
  if negb (isWeekend (Date.mk y m n)) then n
  else if negb (isWeekend (Date.mk y m (n - 1))) then (n - 1)%Z
  else (n - 2)%Z.

(** Sequencing of stages that may throw. *)
Definition andThen {A B : Type} (x : option A) (f : A -> option B) : option B :=
  match x with Some a => f a | None => None end.

(** ** Sample inputs *)

(** A condition on one answer and a rule without flags. *)
Definition simpleCondition (q : string) (op : Operator) (v : string) : RuleCondition.t :=
  RuleCondition.mk q op v None None None.

Definition simpleRule (cs : list RuleCondition.t) (priority : Z) : SelectionRule.t :=
  SelectionRule.mk cs None priority false false.

(** The answers and the templates of the selector test of the repository. *)
Definition sampleResponses : list SurveyResponse.t :=
  [ SurveyResponse.mk "state" (VText "delaware");
    SurveyResponse.mk "capital" (VText "5000000") ].

Definition alwaysTemplate : Template.t :=
  Template.mk "always" "Always Include" "Always Include"
    (Some [SelectionRule.mk [] None 1 true false]) true.

Definition fullMatchTemplate : Template.t :=
  Template.mk "full-match" "Full Match" "Full Match"
    (Some [simpleRule [simpleCondition "state" OpEq "delaware"] 1]) true.

Definition partialMatchTemplate : Template.t :=
  Template.mk "partial-match" "Partial Match" "Partial Match"
    (Some [ simpleRule [simpleCondition "state" OpEq "delaware"] 1;
            simpleRule [simpleCondition "capital" OpGt "10000000"] 2 ]) true.

(** The same template with its rules swapped and other priorities. *)
Definition partialMatchReordered : Template.t :=
  Template.mk "partial-match" "Partial Match" "Partial Match"
    (Some [ simpleRule [simpleCondition "capital" OpGt "10000000"] 7;
            simpleRule [simpleCondition "state" OpEq "delaware"] 9 ]) true.

Definition manualOnlyTemplate : Template.t :=
  Template.mk "manual-only" "Manual Only" "Manual Only"
    (Some [SelectionRule.mk [] None 1 false true]) true.

Definition noRulesTemplate : Template.t :=
  Template.mk "no-rules" "No Rules" "No Rules" (Some []) true.

Definition inactiveTemplate : Template.t :=
  Template.mk "inactive" "Inactive" "Inactive" (Some []) false.

Definition sampleTemplates : list Template.t :=
  [ alwaysTemplate; fullMatchTemplate; partialMatchTemplate;
    manualOnlyTemplate; noRulesTemplate; inactiveTemplate ].

(** A comparison by code units, standing for [localeCompare]. *)
Definition codeUnitCompare (a b : string) : Z :=
  match String.compare a b with
  | Eq => 0%Z
  | Lt => (-1)%Z
  | Gt => 1%Z
  end.

(** A host in UTC that reads back the one ISO string it is given here. *)
Definition sampleToISOString (d : Date.t) : string :=
  formatDateObject d "YYYY-MM-DD" ++ "T00:00:00.000Z".

Definition sampleParseDate (s : string) : option Date.t :=
  if String.eqb s "2026-02-27T00:00:00.000Z" then Some (Date.mk 2026 1 27)
  else if String.eqb s "2026-01-20" then Some (Date.mk 2026 0 20)
  else None.

Definition cashinSample : list SurveyResponse.t :=
  [SurveyResponse.mk "cashin" (VText "2026-01-20")].

(** The variables of a survey with one founder who paid in 5 at a fair
    market value of 2, as stages 5 and 6 leave them. *)
Definition founderSample : Variables :=
  [ ("Founder1Cash", SVal "$5");
    ("FMV", SVal "$2");
    ("founders", AVal [[("name", FString "Jane Doe"); ("cash", FString "$5")]]) ].

(** A survey that says it has no US address. *)
Definition noUSAddressSample : list SurveyResponse.t :=
  [SurveyResponse.mk "hasUSAddress" (VText "no")].

(* ================================================================== *)
(** * Properties                                                       *)
(* ================================================================== *)

(** ** Lists, sorting and counting *)

Lemma insertSorted_perm {A : Type} (cmp : A -> A -> Z) (x : A) (l : list A) :
  Permutation (insertSorted cmp x l) (x :: l).
Proof.
  induction l as [|y r IH]; simpl.
  - apply Permutation_refl.
  - destruct (cmp x y <=? 0)%Z.
    + apply Permutation_refl.
    + eapply perm_trans; [apply perm_skip, IH | apply perm_swap].
Qed.

Lemma sortBy_perm {A : Type} (cmp : A -> A -> Z) (l : list A) :
  Permutation (sortBy cmp l) l.
Proof.
  induction l as [|x r IH]; simpl.
  - constructor.
  - eapply perm_trans; [apply insertSorted_perm | apply perm_skip, IH].
Qed.

Lemma count_perm {A : Type} (p : A -> bool) (l l' : list A) :
  Permutation l l' -> List.length (filter p l) = List.length (filter p l').
Proof.
  induction 1; simpl.
  - reflexivity.
  - destruct (p x); simpl; congruence.
  - destruct (p x), (p y); reflexivity.
  - congruence.
Qed.

Lemma filter_perm {A : Type} (p : A -> bool) (l l' : list A) :
  Permutation l l' -> Permutation (filter p l) (filter p l').
Proof.
  induction 1; simpl.
  - constructor.
  - destruct (p x); [apply perm_skip|]; assumption.
  - destruct (p x), (p y); try apply Permutation_refl. apply perm_swap.
  - eapply perm_trans; eassumption.
Qed.

Lemma existsb_perm {A : Type} (p : A -> bool) (l l' : list A) :
  Permutation l l' -> existsb p l = existsb p l'.
Proof.
  induction 1; simpl.
  - reflexivity.
  - congruence.
  - destruct (p x), (p y); reflexivity.
  - congruence.
Qed.

Lemma count_map {A B : Type} (f : A -> B) (p : B -> bool) (l : list A) :
  List.length (filter p (map f l)) = List.length (filter (fun a => p (f a)) l).
Proof.
  induction l as [|a r IH]; simpl; [reflexivity|].
  destruct (p (f a)); simpl; congruence.
Qed.

Lemma existsb_map {A B : Type} (f : A -> B) (p : B -> bool) (l : list A) :
  existsb p (map f l) = existsb (fun a => p (f a)) l.
Proof.
  induction l as [|a r IH]; simpl; congruence.
Qed.

Lemma find_existsb {A : Type} (p : A -> bool) (l : list A) :
  match find p l with Some _ => true | None => false end = existsb p l.
Proof.
  induction l as [|a r IH]; simpl; [reflexivity|].
  destruct (p a); simpl; [reflexivity | exact IH].
Qed.

(** ** The rule scorer in closed form *)

Lemma scoreStep_count responses cv (l : list SelectionRule.t) (n : nat) (b : bool) :
  fst (fold_left (scoreStep responses cv) l (n, b))
  = n + List.length (filter (ruleMatches responses cv) l).
Proof.
  revert n b. induction l as [|r l IH]; intros n b; simpl.
  - lia.
  - unfold scoreStep at 2, ruleMatches at 1.
    destruct (hasConditions r); simpl.
    + destruct (conditionsMet r responses cv); simpl; rewrite IH; simpl; lia.
    + apply IH.
Qed.

Lemma evaluateRules_closed template responses cv :
  evaluateRules template responses cv =
  let rules := rulesOf template in
  let matched := List.length (filter (ruleMatches responses cv) rules) in
  let total := List.length (filter hasConditions rules) in
  if (List.length rules =? 0)%nat then
    RuleEvaluationResult.mk (Template.id template) (JS.ofZ 0) 0 0 false false
  else if existsb SelectionRule.isAlwaysInclude rules then
    RuleEvaluationResult.mk (Template.id template) (JS.ofZ 1)
      (List.length rules) (List.length rules) true false
  else if existsb SelectionRule.isManualOnly rules then
    RuleEvaluationResult.mk (Template.id template) (JS.ofZ 0) 0 (List.length rules) false true
  else
    RuleEvaluationResult.mk (Template.id template) (scoreOf matched total)
      matched total false false.
Proof.
  unfold evaluateRules, rulesOf. cbv zeta.
  set (rules := match Template.rules template with Some r => r | None => [] end).
  destruct (List.length rules =? 0)%nat; [reflexivity|].
  rewrite <- (find_existsb SelectionRule.isAlwaysInclude rules).
  destruct (find SelectionRule.isAlwaysInclude rules); [reflexivity|].
  rewrite <- (find_existsb SelectionRule.isManualOnly rules).
  destruct (find SelectionRule.isManualOnly rules); [reflexivity|].
  pose proof (scoreStep_count responses cv (sortBy byPriority rules) 0 false) as Hc.
  destruct (fold_left (scoreStep responses cv) (sortBy byPriority rules) (0, false))
    as [m hp]. simpl in Hc.
  rewrite (count_perm _ _ _ (sortBy_perm byPriority rules)) in Hc.
  subst m. reflexivity.
Qed.

(** ** Numbers that are ratios of counts *)

Lemma ofNat_not_neg (n : nat) : JS.isNeg (JS.ofNat n) = false.
Proof.
  unfold JS.isNeg, JS.ofNat, JS.ofZ.
  assert (H : Qle_bool 0 (Qmake (Z.of_nat n) 1) = true).
  { apply Qle_bool_iff. unfold Qle; simpl. lia. }
  rewrite H. reflexivity.
Qed.

Lemma ofNat_isZero (n : nat) : JS.isZero (JS.ofNat n) = (n =? 0)%nat.
Proof.
  unfold JS.isZero, JS.ofNat, JS.ofZ.
  destruct (Qeq_bool (Qmake (Z.of_nat n) 1) 0) eqn:E.
  - apply Qeq_bool_iff in E. unfold Qeq in E; simpl in E.
    symmetry. apply Nat.eqb_eq. lia.
  - destruct n; [discriminate E | reflexivity].
Qed.

(** The quotient of two counts is the rational it should be. *)
Lemma div_counts_fin (m t : nat) :
  (0 < t)%nat ->
  JS.div (JS.ofNat m) (JS.ofNat t)
  = JS.fin (Qdiv (inject_Z (Z.of_nat m)) (inject_Z (Z.of_nat t))).
Proof.
  intros Ht. unfold JS.div.
  change (JS.isNaN (JS.ofNat m)) with false.
  change (JS.isNaN (JS.ofNat t)) with false.
  change (JS.isInf (JS.ofNat m)) with false.
  change (JS.isInf (JS.ofNat t)) with false.
  rewrite !ofNat_isZero, !ofNat_not_neg. simpl.
  destruct t as [|t']; [lia|]. cbn [Nat.eqb]. rewrite andb_false_r. simpl.
  destruct m as [|m']; simpl.
  - reflexivity.
  - reflexivity.
Qed.

Lemma div_counts (m t : nat) :
  (0 < t)%nat ->
  exists q, JS.div (JS.ofNat m) (JS.ofNat t) = JS.Fin q
            /\ Qeq q (Qdiv (inject_Z (Z.of_nat m)) (inject_Z (Z.of_nat t))).
Proof.
  intros Ht. rewrite (div_counts_fin m t Ht). eexists. split; [reflexivity|].
  apply Qred_correct.
Qed.

Lemma scoreOf_finite (m t : nat) : exists q, scoreOf m t = JS.Fin q.
Proof.
  unfold scoreOf. destruct (0 <? t)%nat eqn:E.
  - apply Nat.ltb_lt in E. destruct (div_counts m t E) as [q [Hq _]]. eauto.
  - eexists; reflexivity.
Qed.

(** [evaluateRules] never yields NaN or an infinity. *)
Lemma score_finite template responses cv :
  exists q, RuleEvaluationResult.score (evaluateRules template responses cv) = JS.Fin q.
Proof.
  rewrite evaluateRules_closed. cbv zeta.
  destruct (List.length (rulesOf template) =? 0)%nat; [eexists; reflexivity|].
  destruct (existsb SelectionRule.isAlwaysInclude (rulesOf template)); [eexists; reflexivity|].
  destruct (existsb SelectionRule.isManualOnly (rulesOf template)); [eexists; reflexivity|].
  apply scoreOf_finite.
Qed.

Lemma geb_one_ltb (q : Q) :
  JS.ltb (JS.Fin q) (JS.ofZ 1) = negb (JS.geb (JS.Fin q) (JS.ofZ 1)).
Proof.
  unfold JS.geb, JS.leb, JS.ltb, JS.ofZ; simpl. reflexivity.
Qed.

(** ** C2: the rule scorer *)

Lemma conditionsMet_or rule responses cv :
  SelectionRule.logicalOperator rule = Some OR ->
  (conditionsMet rule responses cv = true <->
   exists c, In c (SelectionRule.conditions rule)
             /\ evaluateCondition c responses cv = true).
Proof.
  intros H. unfold conditionsMet. rewrite H. apply existsb_exists.
Qed.

Lemma conditionsMet_and rule responses cv :
  SelectionRule.logicalOperator rule <> Some OR ->
  (conditionsMet rule responses cv = true <->
   forall c, In c (SelectionRule.conditions rule)
             -> evaluateCondition c responses cv = true).
Proof.
  intros H. unfold conditionsMet.
  destruct (SelectionRule.logicalOperator rule) as [[|]|];
    try apply forallb_forall. congruence.
Qed.

(** C2.  [evaluateRules] by cases: no rule gives score 0 and no flag; an
    always-include rule gives score 1 and the always-include flag whatever
    the other rules are; failing that, a manual-only rule gives score 0 and
    the manual-only flag; failing both, a rule that has a condition is
    matched when its conditions hold under its operator (all of them for
    AND, one of them for OR), [matchedRules] counts those rules,
    [totalRules] counts the rules that have a condition, and the score is
    their quotient, 0 when no rule has a condition. *)
Theorem evaluateRules_spec :
  forall (template : Template.t) (responses : list SurveyResponse.t)
         (cv : option (Record ComputedValue)),
    let rules := rulesOf template in
    let r := evaluateRules template responses cv in
    (rules = [] ->
       RuleEvaluationResult.score r = JS.ofZ 0
       /\ RuleEvaluationResult.isAlwaysInclude r = false
       /\ RuleEvaluationResult.isManualOnly r = false)
    /\ (existsb SelectionRule.isAlwaysInclude rules = true ->
          RuleEvaluationResult.score r = JS.ofZ 1
          /\ RuleEvaluationResult.isAlwaysInclude r = true)
    /\ (existsb SelectionRule.isAlwaysInclude rules = false ->
        existsb SelectionRule.isManualOnly rules = true ->
          RuleEvaluationResult.score r = JS.ofZ 0
          /\ RuleEvaluationResult.isAlwaysInclude r = false
          /\ RuleEvaluationResult.isManualOnly r = true)
    /\ (existsb SelectionRule.isAlwaysInclude rules = false ->
        existsb SelectionRule.isManualOnly rules = false ->
          let matched := List.length (filter (ruleMatches responses cv) rules) in
          let total := List.length (filter hasConditions rules) in
          RuleEvaluationResult.matchedRules r = matched
          /\ RuleEvaluationResult.totalRules r = total
          /\ RuleEvaluationResult.isAlwaysInclude r = false
          /\ RuleEvaluationResult.isManualOnly r = false
          /\ (total = 0%nat -> RuleEvaluationResult.score r = JS.ofZ 0)
          /\ ((0 < total)%nat ->
              exists q, RuleEvaluationResult.score r = JS.Fin q
                        /\ Qeq q (Qdiv (inject_Z (Z.of_nat matched))
                                       (inject_Z (Z.of_nat total)))))
    /\ (forall rule, In rule rules ->
          (SelectionRule.logicalOperator rule = Some OR ->
             (ruleMatches responses cv rule = true <->
              SelectionRule.conditions rule <> []
              /\ exists c, In c (SelectionRule.conditions rule)
                           /\ evaluateCondition c responses cv = true))
          /\ (SelectionRule.logicalOperator rule <> Some OR ->
             (ruleMatches responses cv rule = true <->
              SelectionRule.conditions rule <> []
              /\ forall c, In c (SelectionRule.conditions rule)
                           -> evaluateCondition c responses cv = true))).
Proof.
  intros template responses cv rules r.
  assert (Hr : r = evaluateRules template responses cv) by reflexivity.
  rewrite evaluateRules_closed in Hr. cbv zeta in Hr. fold rules in Hr.
  assert (Hhas : forall rule, hasConditions rule = true
                              <-> SelectionRule.conditions rule <> []).
  { intros rule. unfold hasConditions.
    destruct (SelectionRule.conditions rule); simpl; split; congruence. }
  split; [| split; [| split; [| split]]].
  - intros H. rewrite Hr, H. simpl. auto.
  - intros H. rewrite Hr, H.
    destruct (List.length rules =? 0)%nat eqn:E; [|simpl; auto].
    apply Nat.eqb_eq in E. destruct rules; [discriminate H | discriminate E].
  - intros H H0. rewrite Hr, H, H0.
    destruct (List.length rules =? 0)%nat eqn:E; [|simpl; auto].
    apply Nat.eqb_eq in E. destruct rules; [discriminate H0 | discriminate E].
  - intros H H0 matched total. rewrite Hr, H, H0.
    destruct (List.length rules =? 0)%nat eqn:E.
    + apply Nat.eqb_eq in E.
      assert (Hnil : rules = []) by (destruct rules; [reflexivity | discriminate E]).
      assert (Hm : matched = 0%nat) by (unfold matched; rewrite Hnil; reflexivity).
      assert (Ht : total = 0%nat) by (unfold total; rewrite Hnil; reflexivity).
      rewrite Hm, Ht. simpl. repeat split; try reflexivity. intros; lia.
    + simpl. repeat split; try reflexivity.
      * intros Ht. unfold scoreOf. fold matched total. rewrite Ht. reflexivity.
      * intros Ht. unfold scoreOf. fold matched total.
        pose proof Ht as Ht'. apply Nat.ltb_lt in Ht'. rewrite Ht'.
        apply div_counts; assumption.
  - intros rule _. split; intros Hop; unfold ruleMatches; rewrite andb_true_iff, Hhas.
    + rewrite (conditionsMet_or _ _ _ Hop). reflexivity.
    + rewrite (conditionsMet_and _ _ _ Hop). reflexivity.
Qed.

(** ** C9: priorities and the order of the rules *)

Lemma ruleMatches_forget responses cv rule :
  ruleMatches responses cv (forgetPriority rule) = ruleMatches responses cv rule.
Proof. reflexivity. Qed.

Lemma count_forget (p : SelectionRule.t -> bool) (l l' : list SelectionRule.t) :
  (forall r, p (forgetPriority r) = p r) ->
  Permutation (map forgetPriority l) (map forgetPriority l') ->
  List.length (filter p l) = List.length (filter p l').
Proof.
  intros Hp HP.
  rewrite <- (filter_ext _ _ Hp l), <- (filter_ext _ _ Hp l').
  rewrite <- !(count_map forgetPriority p).
  apply count_perm; assumption.
Qed.

Lemma existsb_pointwise {A : Type} (p q : A -> bool) (l : list A) :
  (forall a, p a = q a) -> existsb p l = existsb q l.
Proof.
  intros H. induction l as [|a r IH]; simpl; [reflexivity|]. rewrite H, IH. reflexivity.
Qed.

Lemma existsb_forget (p : SelectionRule.t -> bool) (l l' : list SelectionRule.t) :
  (forall r, p (forgetPriority r) = p r) ->
  Permutation (map forgetPriority l) (map forgetPriority l') ->
  existsb p l = existsb p l'.
Proof.
  intros Hp HP.
  rewrite <- (existsb_pointwise _ _ l Hp), <- (existsb_pointwise _ _ l' Hp).
  rewrite <- !(existsb_map forgetPriority p).
  apply existsb_perm; assumption.
Qed.

(** C9.  Two templates with the same id whose rules are the same up to
    their priorities and their order in the list are evaluated alike: the
    score, the two counts and the two flags coincide.  The priority only
    fixes the order in which the rules are visited. *)
Theorem evaluateRules_priority_irrelevant :
  forall (t1 t2 : Template.t) (responses : list SurveyResponse.t)
         (cv : option (Record ComputedValue)),
    Template.id t1 = Template.id t2 ->
    Permutation (map forgetPriority (rulesOf t1)) (map forgetPriority (rulesOf t2)) ->
    evaluateRules t1 responses cv = evaluateRules t2 responses cv.
Proof.
  intros t1 t2 responses cv Hid HP.
  rewrite !evaluateRules_closed. cbv zeta.
  assert (Hlen : List.length (rulesOf t1) = List.length (rulesOf t2)).
  { apply Permutation_length in HP. rewrite !length_map in HP. exact HP. }
  rewrite Hid, Hlen.
  rewrite (existsb_forget SelectionRule.isAlwaysInclude _ _ (fun _ => eq_refl) HP).
  rewrite (existsb_forget SelectionRule.isManualOnly _ _ (fun _ => eq_refl) HP).
  rewrite (count_forget (ruleMatches responses cv) _ _ (ruleMatches_forget responses cv) HP).
  rewrite (count_forget hasConditions _ _ (fun _ => eq_refl) HP).
  reflexivity.
Qed.

(** ** C1: the template selector *)

(** One turn of the selection loop puts the template into the bucket that
    its evaluation designates. *)
Lemma selectStep_bucket responses cv req sug opt (t : Template.t) :
  let e := evaluateRules t responses cv in
  selectStep responses cv (req, sug, opt) t =
  ((req ++ (if goesToRequired e then [t] else []))%list,
   (sug ++ (if goesToSuggested e then [t] else []))%list,
   (opt ++ (if goesToOptional e then [t] else []))%list).
Proof.
  intros e. unfold selectStep. fold e.
  assert (He : e = evaluateRules t responses cv) by reflexivity.
  rewrite evaluateRules_closed in He. cbv zeta in He.
  unfold goesToOptional, goesToRequired, goesToSuggested.
  destruct (List.length (rulesOf t) =? 0)%nat.
  { rewrite He. simpl. rewrite !app_nil_r. reflexivity. }
  destruct (existsb SelectionRule.isAlwaysInclude (rulesOf t)).
  { rewrite He. simpl. rewrite !app_nil_r. reflexivity. }
  destruct (existsb SelectionRule.isManualOnly (rulesOf t)).
  { rewrite He. simpl. rewrite !app_nil_r. reflexivity. }
  rewrite He. cbn [RuleEvaluationResult.isAlwaysInclude RuleEvaluationResult.isManualOnly
                   RuleEvaluationResult.totalRules RuleEvaluationResult.score].
  set (m := List.length (filter (ruleMatches responses cv) (rulesOf t))).
  set (n := List.length (filter hasConditions (rulesOf t))).
  destruct (n =? 0)%nat eqn:En.
  { apply Nat.eqb_eq in En. rewrite En. simpl. rewrite !app_nil_r. reflexivity. }
  destruct (scoreOf_finite m n) as [q Hq]. rewrite Hq.
  rewrite geb_one_ltb.
  destruct (JS.geb (JS.Fin q) (JS.ofZ 1)); simpl; rewrite ?app_nil_r.
  - rewrite andb_false_r. simpl. rewrite !app_nil_r. reflexivity.
  - rewrite andb_true_r.
    destruct (JS.gtb (JS.Fin q) (JS.Fin (Qmake 1 2))); simpl; rewrite ?app_nil_r; reflexivity.
Qed.

Lemma selectLoop_buckets responses cv (l : list Template.t) req sug opt :
  fold_left (selectStep responses cv) l (req, sug, opt) =
  ((req ++ filter (fun t => goesToRequired (evaluateRules t responses cv)) l)%list,
   (sug ++ filter (fun t => goesToSuggested (evaluateRules t responses cv)) l)%list,
   (opt ++ filter (fun t => goesToOptional (evaluateRules t responses cv)) l)%list).
Proof.
  revert req sug opt. induction l as [|t l IH]; intros req sug opt; cbn [fold_left filter].
  - rewrite !app_nil_r. reflexivity.
  - rewrite selectStep_bucket. cbv zeta. rewrite IH.
    destruct (goesToRequired (evaluateRules t responses cv)),
             (goesToSuggested (evaluateRules t responses cv)),
             (goesToOptional (evaluateRules t responses cv));
      rewrite <- ?app_assoc; simpl; rewrite ?app_nil_r; reflexivity.
Qed.

Lemma filter_filter {A : Type} (p q : A -> bool) (l : list A) :
  filter q (filter p l) = filter (fun a => p a && q a) l.
Proof.
  induction l as [|a r IH]; simpl; [reflexivity|].
  destruct (p a); simpl; [destruct (q a)|]; congruence.
Qed.

(** The buckets before they are sorted by name. *)
Lemma selectTemplates_buckets localeCompare responses templates cv :
  let sel := selectTemplates localeCompare responses templates cv in
  let ev t := evaluateRules t responses cv in
  TemplateSelection.required sel
    = sortBy (sortByName localeCompare)
        (filter (fun t => Template.isActive t && goesToRequired (ev t)) templates)
  /\ TemplateSelection.suggested sel
    = sortBy (sortByName localeCompare)
        (filter (fun t => Template.isActive t && goesToSuggested (ev t)) templates)
  /\ TemplateSelection.optional sel
    = sortBy (sortByName localeCompare)
        (filter (fun t => Template.isActive t && goesToOptional (ev t)) templates).
Proof.
  unfold selectTemplates. cbv zeta.
  rewrite selectLoop_buckets. simpl.
  rewrite !filter_filter. repeat split; reflexivity.
Qed.

(** Exactly half of the rules matched: the score is one half. *)
Lemma scoreOf_half (m : nat) : (0 < m)%nat -> scoreOf m (2 * m) = JS.Fin (Qmake 1 2).
Proof.
  intros Hm. unfold scoreOf.
  assert (H2 : (0 <? 2 * m)%nat = true) by (apply Nat.ltb_lt; lia).
  rewrite H2, div_counts_fin by lia.
  unfold JS.fin. f_equal.
  change (Qmake 1 2) with (Qred (Qmake 1 2)).
  apply Qred_complete.
  rewrite Nat2Z.inj_mul, inject_Z_mult.
  assert (Hz : ~ Qeq (inject_Z (Z.of_nat m)) 0).
  { unfold Qeq, inject_Z; simpl. lia. }
  field. exact Hz.
Qed.

(** How the evaluation of a template decides its bucket. *)
Lemma evaluation_cases template responses cv :
  let e := evaluateRules template responses cv in
  (RuleEvaluationResult.isAlwaysInclude e = true ->
     RuleEvaluationResult.score e = JS.ofZ 1
     /\ RuleEvaluationResult.isManualOnly e = false
     /\ (0 < RuleEvaluationResult.totalRules e)%nat)
  /\ (RuleEvaluationResult.isManualOnly e = true ->
     RuleEvaluationResult.score e = JS.ofZ 0
     /\ RuleEvaluationResult.matchedRules e = 0%nat)
  /\ (RuleEvaluationResult.totalRules e = 0%nat ->
     RuleEvaluationResult.score e = JS.ofZ 0)
  /\ (RuleEvaluationResult.isAlwaysInclude e = false ->
      RuleEvaluationResult.isManualOnly e = false ->
      RuleEvaluationResult.score e
      = scoreOf (RuleEvaluationResult.matchedRules e) (RuleEvaluationResult.totalRules e)).
Proof.
  intros e. assert (He : e = evaluateRules template responses cv) by reflexivity.
  rewrite evaluateRules_closed in He. cbv zeta in He.
  destruct (List.length (rulesOf template) =? 0)%nat eqn:E0.
  { rewrite He; simpl. repeat split; try discriminate; reflexivity. }
  destruct (existsb SelectionRule.isAlwaysInclude (rulesOf template)).
  { rewrite He; simpl. apply Nat.eqb_neq in E0.
    repeat split; try discriminate; try reflexivity; try (intros; lia). }
  destruct (existsb SelectionRule.isManualOnly (rulesOf template)).
  { rewrite He; simpl. apply Nat.eqb_neq in E0.
    repeat split; try discriminate; try reflexivity; try (intros; lia). }
  rewrite He; simpl. repeat split; try discriminate.
  intros H. rewrite H. reflexivity.
Qed.

(** C1.  [selectTemplates] drops the inactive templates and splits the
    others: into [required] when the evaluation is always-include or its
    score is at least 1, into [suggested] when the score lies strictly
    between 0.5 and 1, into [optional] otherwise, which covers the
    manual-only templates, the templates none of whose rules has a
    condition and the scores up to 0.5.  Each bucket holds exactly those
    templates (the sort by name only reorders them).  A template exactly
    half of whose rules match has score 0.5 and lands in [optional]. *)
Theorem selectTemplates_partition :
  forall (localeCompare : string -> string -> Z)
         (responses : list SurveyResponse.t) (templates : list Template.t)
         (cv : option (Record ComputedValue)),
    let sel := selectTemplates localeCompare responses templates cv in
    let ev t := evaluateRules t responses cv in
    Permutation (TemplateSelection.required sel)
      (filter (fun t => Template.isActive t && goesToRequired (ev t)) templates)
    /\ Permutation (TemplateSelection.suggested sel)
      (filter (fun t => Template.isActive t && goesToSuggested (ev t)) templates)
    /\ Permutation (TemplateSelection.optional sel)
      (filter (fun t => Template.isActive t && goesToOptional (ev t)) templates)
    /\ (forall t, In t templates -> Template.isActive t = true ->
          RuleEvaluationResult.isManualOnly (ev t) = true
          \/ RuleEvaluationResult.totalRules (ev t) = 0%nat
          \/ JS.leb (RuleEvaluationResult.score (ev t)) (JS.Fin (Qmake 1 2)) = true ->
          In t (TemplateSelection.optional sel))
    /\ (forall t, In t templates -> Template.isActive t = true ->
          RuleEvaluationResult.isAlwaysInclude (ev t) = false ->
          (0 < RuleEvaluationResult.matchedRules (ev t))%nat ->
          RuleEvaluationResult.totalRules (ev t)
          = (2 * RuleEvaluationResult.matchedRules (ev t))%nat ->
          RuleEvaluationResult.score (ev t) = JS.Fin (Qmake 1 2)
          /\ In t (TemplateSelection.optional sel)
          /\ ~ In t (TemplateSelection.suggested sel)
          /\ ~ In t (TemplateSelection.required sel)).
Proof.
  intros localeCompare responses templates cv sel ev.
  pose proof (selectTemplates_buckets localeCompare responses templates cv) as HB.
  cbv zeta in HB. destruct HB as (Hreq & Hsug & Hopt).
  assert (Preq : Permutation (TemplateSelection.required sel)
            (filter (fun t => Template.isActive t && goesToRequired (ev t)) templates)).
  { unfold sel. rewrite Hreq. apply sortBy_perm. }
  assert (Psug : Permutation (TemplateSelection.suggested sel)
            (filter (fun t => Template.isActive t && goesToSuggested (ev t)) templates)).
  { unfold sel. rewrite Hsug. apply sortBy_perm. }
  assert (Popt : Permutation (TemplateSelection.optional sel)
            (filter (fun t => Template.isActive t && goesToOptional (ev t)) templates)).
  { unfold sel. rewrite Hopt. apply sortBy_perm. }
  clear Hreq Hsug Hopt.
  split; [exact Preq|]. split; [exact Psug|]. split; [exact Popt|].
  assert (Hin_opt : forall t, In t templates -> Template.isActive t = true ->
                      goesToOptional (ev t) = true -> In t (TemplateSelection.optional sel)).
  { intros t Hin Hact Hgo. apply (Permutation_in _ (Permutation_sym Popt)).
    apply filter_In. split; [exact Hin|]. rewrite Hact, Hgo. reflexivity. }
  split.
  - intros t Hin Hact Hcase. apply Hin_opt; try assumption.
    destruct (evaluation_cases t responses cv) as (Hai & Hmo & Htot & _).
    fold (ev t) in Hai, Hmo, Htot.
    unfold goesToOptional, goesToRequired, goesToSuggested.
    destruct (RuleEvaluationResult.isAlwaysInclude (ev t)) eqn:Eai.
    + destruct (Hai eq_refl) as (Hs & Hm & Hpos).
      destruct Hcase as [Hc | [Hc | Hc]].
      * congruence.
      * lia.
      * rewrite Hs in Hc. discriminate Hc.
    + assert (Hs : exists q, RuleEvaluationResult.score (ev t) = JS.Fin q
                             /\ Qle_bool q (Qmake 1 2) = true).
      { destruct Hcase as [Hc | [Hc | Hc]].
        - destruct (Hmo Hc) as [Hs _]. exists 0%Q. split; [exact Hs | reflexivity].
        - exists 0%Q. split; [exact (Htot Hc) | reflexivity].
        - destruct (score_finite t responses cv) as [q Hq]. fold (ev t) in Hq.
          exists q. split; [exact Hq|]. rewrite Hq in Hc. exact Hc. }
      destruct Hs as (q & Hq & Hle). rewrite Hq.
      unfold JS.geb, JS.gtb, JS.leb, JS.ltb, JS.ofZ. simpl.
      rewrite Hle. simpl.
      assert (H1 : Qle_bool 1 q = false).
      { destruct (Qle_bool 1 q) eqn:E; [|reflexivity].
        apply Qle_bool_iff in E. apply Qle_bool_iff in Hle.
        exfalso. assert (Hc : Qle 1 (Qmake 1 2)) by (eapply Qle_trans; eassumption).
        unfold Qle in Hc; simpl in Hc. lia. }
      rewrite H1. reflexivity.
  - intros t Hin Hact Hai Hpos Htot.
    destruct (evaluation_cases t responses cv) as (_ & Hmo & _ & Hnorm).
    fold (ev t) in Hmo, Hnorm.
    assert (Hmof : RuleEvaluationResult.isManualOnly (ev t) = false).
    { destruct (RuleEvaluationResult.isManualOnly (ev t)) eqn:E; [|reflexivity].
      destruct (Hmo eq_refl) as [_ Hz]. lia. }
    assert (Hs : RuleEvaluationResult.score (ev t) = JS.Fin (Qmake 1 2)).
    { rewrite (Hnorm Hai Hmof), Htot. apply scoreOf_half; assumption. }
    assert (Hgo : goesToOptional (ev t) = true).
    { unfold goesToOptional, goesToRequired, goesToSuggested. rewrite Hai, Hs. reflexivity. }
    split; [exact Hs|]. split; [apply Hin_opt; assumption|].
    unfold goesToOptional in Hgo. apply andb_true_iff in Hgo. destruct Hgo as [Hnr Hns].
    split; intros Hc.
    + apply (Permutation_in _ Psug), filter_In in Hc. destruct Hc as [_ Hc].
      rewrite Hact in Hc. simpl in Hc. rewrite Hc in Hns. discriminate Hns.
    + apply (Permutation_in _ Preq), filter_In in Hc. destruct Hc as [_ Hc].
      rewrite Hact in Hc. simpl in Hc. rewrite Hc in Hnr. discriminate Hnr.
Qed.

(** ** C3: the condition evaluator *)

Lemma startsWith_spec (p s : string) :
  JS.startsWith p s = true <-> exists q, s = p ++ q.
Proof.
  revert s. induction p as [|a p IH]; intros s; simpl.
  - split; [intros _; exists s; reflexivity | reflexivity].
  - destruct s as [|b s]; simpl.
    + split; [discriminate | intros [q Hq]; discriminate Hq].
    + rewrite andb_true_iff, Ascii.eqb_eq, IH. split.
      * intros [-> [q ->]]. exists q. reflexivity.
      * intros [q Hq]. injection Hq as -> ->. split; [reflexivity | exists q; reflexivity].
Qed.

(** [includes] is the substring test. *)
Lemma includes_spec (s sub : string) :
  JS.includes s sub = true <-> exists p q, s = p ++ sub ++ q.
Proof.
  induction s as [|c s IH]; simpl.
  - rewrite orb_false_r, startsWith_spec. split.
    + intros [q Hq]. exists "", q. exact Hq.
    + intros [p [q Hq]]. destruct p; [exists q; exact Hq | discriminate Hq].
  - rewrite orb_true_iff, startsWith_spec, IH. split.
    + intros [[q Hq] | [p [q Hq]]].
      * exists "", q. exact Hq.
      * exists (String c p), q. simpl. rewrite Hq. reflexivity.
    + intros [p [q Hq]]. destruct p as [|c' p]; simpl in Hq.
      * left. exists q. exact Hq.
      * right. injection Hq as _ Hq. exists p, q. exact Hq.
Qed.


(** ** The expression evaluator: more fuel, same result *)

Lemma replaceGroups_mono (f g : string -> option string) :
  extends f g ->
  forall s cur r, replaceGroups f s cur = Some r -> replaceGroups g s cur = Some r.
Proof.
  intros Hfg. induction s as [|c s IH]; intros cur r H; simpl in *.
  - exact H.
  - destruct cur as [inner|].
    + destruct (Ascii.eqb c "(").
      * destruct (replaceGroups f s (Some "")) eqn:E; [|discriminate H].
        rewrite (IH _ _ E). exact H.
      * destruct (Ascii.eqb c ")").
        -- destruct (JS.isEmpty inner).
           ++ destruct (replaceGroups f s None) eqn:E; [|discriminate H].
              rewrite (IH _ _ E). exact H.
           ++ destruct (f (JS.rev inner)) eqn:Ef; [|discriminate H].
              rewrite (Hfg _ _ Ef).
              destruct (replaceGroups f s None) eqn:E; [|discriminate H].
              rewrite (IH _ _ E). exact H.
        -- apply IH. exact H.
    + destruct (Ascii.eqb c "(").
      * apply IH. exact H.
      * destruct (replaceGroups f s None) eqn:E; [|discriminate H].
        rewrite (IH _ _ E). exact H.
Qed.

Lemma resolveParentheses_mono (f g : string -> option string) :
  extends f g ->
  forall n m e r, (n <= m)%nat ->
    resolveParentheses n f e = Some r -> resolveParentheses m g e = Some r.
Proof.
  intros Hfg. induction n as [|n IH]; intros m e r Hle H.
  - simpl in H. destruct (JS.includes e "(") eqn:E; [discriminate H|].
    destruct m; simpl; rewrite E; exact H.
  - destruct m as [|m]; [lia|]. simpl in *.
    destruct (JS.includes e "("); [|exact H].
    destruct (replaceGroups f e None) eqn:E; [|discriminate H].
    rewrite (replaceGroups_mono f g Hfg _ _ _ E).
    apply (IH m); [lia | exact H].
Qed.

(** A result obtained with some fuel is obtained with any larger fuel. *)
Lemma evaluateMathExpression_mono :
  forall n m e r, (n <= m)%nat ->
    evaluateMathExpression n e = Some r -> evaluateMathExpression m e = Some r.
Proof.
  induction n as [|n IH]; intros m e r Hle H; [discriminate H|].
  destruct m as [|m]; [lia|].
  assert (Hnm : (n <= m)%nat) by lia.
  assert (Hext : extends (fun s => option_map JS.toString (evaluateMathExpression n s))
                         (fun s => option_map JS.toString (evaluateMathExpression m s))).
  { intros s v Hs. destruct (evaluateMathExpression n s) eqn:E; [|discriminate Hs].
    rewrite (IH m s _ Hnm E). exact Hs. }
  cbn [evaluateMathExpression] in *.
  destruct (resolveParentheses n _ (JS.removeChars JS.isWhiteSpace e)) as [e'|] eqn:Er;
    [|discriminate H].
  rewrite (resolveParentheses_mono _ _ Hext n m _ _ Hnm Er).
  assert (Hsub : forall s v, evaluateMathExpression n s = Some v ->
                             evaluateMathExpression m s = Some v).
  { intros s v Hs. exact (IH m s v Hnm Hs). }
  assert (Hmd :
    forall v,
      match matchLazy isMulDiv e' with
      | Some (lhs, operator, rhs) =>
          match evaluateMathExpression n lhs, evaluateMathExpression n rhs with
          | Some leftVal, Some rightVal => Some (applyMulDiv operator leftVal rightVal)
          | _, _ => None
          end
      | None => Some (parseFloatOrZero e')
      end = Some v ->
      match matchLazy isMulDiv e' with
      | Some (lhs, operator, rhs) =>
          match evaluateMathExpression m lhs, evaluateMathExpression m rhs with
          | Some leftVal, Some rightVal => Some (applyMulDiv operator leftVal rightVal)
          | _, _ => None
          end
      | None => Some (parseFloatOrZero e')
      end = Some v).
  { intros v Hv. destruct (matchLazy isMulDiv e') as [[[l o] rr]|]; [|exact Hv].
    destruct (evaluateMathExpression n l) eqn:El; [|discriminate Hv].
    destruct (evaluateMathExpression n rr) eqn:Err; [|discriminate Hv].
    rewrite (Hsub _ _ El), (Hsub _ _ Err). exact Hv. }
  destruct (matchLazy isAddSub e') as [[[l o] rr]|].
  - destruct (negb (endsWithOperator l)).
    + destruct (evaluateMathExpression n l) eqn:El; [|discriminate H].
      destruct (evaluateMathExpression n rr) eqn:Err; [|discriminate H].
      rewrite (Hsub _ _ El), (Hsub _ _ Err). exact H.
    + apply Hmd. exact H.
  - apply Hmd. exact H.
Qed.

Lemma evaluateFormula_mono :
  forall n m formula variables r, (n <= m)%nat ->
    evaluateFormula n formula variables = Some r ->
    evaluateFormula m formula variables = Some r.
Proof.
  intros n m formula variables r Hle H. unfold evaluateFormula in *.
  destruct (JS.isEmpty formula || JS.isEmpty (JS.trim formula)); [exact H|].
  destruct (collectMatches (scanPlaceholders formula None) variables) as [ms|]; [|exact H].
  destruct (negb (allowedExpression (substituteAll formula ms))); [exact H|].
  destruct (evaluateMathExpression n (substituteAll formula ms)) eqn:E; [|discriminate H].
  rewrite (evaluateMathExpression_mono n m _ _ Hle E). exact H.
Qed.

(** ** Strings made of plain characters *)

Lemma append_nil_r (s : string) : s ++ "" = s.
Proof. induction s; simpl; congruence. Qed.

Lemma append_assoc (a b c : string) : (a ++ b) ++ c = a ++ (b ++ c).
Proof. induction a; simpl; congruence. Qed.

Lemma revOnto_append (s acc : string) : JS.revOnto s acc = JS.rev s ++ acc.
Proof.
  unfold JS.rev. revert acc. induction s as [|c s IH]; intros acc; simpl.
  - reflexivity.
  - rewrite IH, (IH (String c "")), append_assoc. reflexivity.
Qed.

Lemma rev_revOnto (a acc : string) : JS.rev (JS.revOnto a acc) = JS.rev acc ++ a.
Proof.
  revert acc. induction a as [|c a IH]; intros acc; simpl.
  - rewrite append_nil_r. reflexivity.
  - rewrite IH. unfold JS.rev at 1. simpl. rewrite revOnto_append, append_assoc.
    reflexivity.
Qed.

Lemma plainChar_facts (c : ascii) :
  plainChar c = true ->
  JS.isWhiteSpace c = false /\ isAddSub c = false /\ isMulDiv c = false
  /\ isOperatorChar c = false /\ Ascii.eqb c "(" = false /\ Ascii.eqb c ")" = false
  /\ Ascii.eqb c "{" = false /\ allowedChar c = true.
Proof.
  destruct c as [[] [] [] [] [] [] [] []]; intros H;
    try discriminate H; repeat split; reflexivity.
Qed.

Lemma allChars_append (p : ascii -> bool) (a b : string) :
  JS.allChars p (a ++ b) = JS.allChars p a && JS.allChars p b.
Proof.
  induction a as [|c a IH]; simpl; [reflexivity|]. rewrite IH, andb_assoc. reflexivity.
Qed.

Lemma removeChars_append (p : ascii -> bool) (a b : string) :
  JS.removeChars p (a ++ b) = JS.removeChars p a ++ JS.removeChars p b.
Proof.
  induction a as [|c a IH]; simpl; [reflexivity|].
  destruct (p c); simpl; congruence.
Qed.

Lemma removeChars_plain (a : string) :
  JS.allChars plainChar a = true -> JS.removeChars JS.isWhiteSpace a = a.
Proof.
  induction a as [|c a IH]; simpl; [reflexivity|].
  intros H. apply andb_true_iff in H. destruct H as [Hc Ha].
  destruct (plainChar_facts c Hc) as (Hw & _). rewrite Hw, (IH Ha). reflexivity.
Qed.

(** No opening parenthesis in [a ++ b] when [a] is plain and [b] has none. *)
Lemma includes_paren_plain (a b : string) :
  JS.allChars plainChar a = true ->
  JS.includes (a ++ b) "(" = JS.includes b "(".
Proof.
  induction a as [|c a IH]; [reflexivity|].
  cbn [append JS.includes JS.startsWith JS.allChars].
  intros H. apply andb_true_iff in H. destruct H as [Hc Ha].
  destruct (plainChar_facts c Hc) as (_ & _ & _ & _ & Hp & _).
  rewrite Ascii.eqb_sym, Hp. cbn [andb orb]. exact (IH Ha).
Qed.

Lemma splitAtFirst_plain (isOp : ascii -> bool) (a rest acc : string) (op : ascii) :
  (forall c, plainChar c = true -> isOp c = false) ->
  JS.allChars plainChar a = true -> isOp op = true -> rest <> "" ->
  splitAtFirst isOp (a ++ String op rest) acc = Some (JS.rev acc ++ a, op, rest).
Proof.
  intros Hops Ha Hop Hrest. revert acc Ha. induction a as [|c a IH]; intros acc Ha; simpl.
  - rewrite Hop. destruct rest; [congruence|]. simpl. rewrite append_nil_r. reflexivity.
  - simpl in Ha. apply andb_true_iff in Ha. destruct Ha as [Hc Ha].
    rewrite (Hops c Hc), (IH _ Ha). unfold JS.rev at 1. simpl.
    rewrite revOnto_append, append_assoc. reflexivity.
Qed.

Lemma splitAtFirst_none (isOp : ascii -> bool) (a acc : string) :
  (forall c, plainChar c = true -> isOp c = false) ->
  JS.allChars plainChar a = true ->
  splitAtFirst isOp a acc = None.
Proof.
  intros Hops. revert acc. induction a as [|c a IH]; intros acc Ha; simpl.
  - reflexivity.
  - simpl in Ha. apply andb_true_iff in Ha. destruct Ha as [Hc Ha].
    rewrite (Hops c Hc). apply IH. exact Ha.
Qed.

(** The lazy match on [a op rest], [a] a plain numeral: the split is at
    [op], and the right part is all that follows. *)
Lemma matchLazy_plain (isOp : ascii -> bool) (a rest : string) (op : ascii) :
  (forall c, plainChar c = true -> isOp c = false) ->
  plainNumeral a = true -> isOp op = true -> rest <> "" ->
  matchLazy isOp (a ++ String op rest) = Some (a, op, rest).
Proof.
  intros Hops Ha Hop Hrest. unfold plainNumeral in Ha.
  destruct a as [|c a]; [discriminate Ha|]. simpl in Ha.
  apply andb_true_iff in Ha. destruct Ha as [_ Ha].
  simpl. rewrite (splitAtFirst_plain isOp a rest _ op Hops Ha Hop Hrest).
  reflexivity.
Qed.

Lemma matchLazy_none (isOp : ascii -> bool) (a : string) :
  (forall c, plainChar c = true -> isOp c = false) ->
  JS.allChars plainChar a = true ->
  matchLazy isOp a = None.
Proof.
  intros Hops Ha. destruct a as [|c a]; [reflexivity|]. simpl in *.
  apply andb_true_iff in Ha. destruct Ha as [_ Ha].
  apply splitAtFirst_none; assumption.
Qed.

Lemma plain_not_addSub c : plainChar c = true -> isAddSub c = false.
Proof. intros H. apply (plainChar_facts c H). Qed.

Lemma plain_not_mulDiv c : plainChar c = true -> isMulDiv c = false.
Proof. intros H. apply (plainChar_facts c H). Qed.

Lemma endsWithOperator_plain (a : string) :
  JS.allChars plainChar a = true -> endsWithOperator a = false.
Proof.
  induction a as [|c a IH]; simpl; [reflexivity|].
  intros H. apply andb_true_iff in H. destruct H as [Hc Ha].
  destruct a as [|c' a']; [apply (plainChar_facts c Hc) | exact (IH Ha)].
Qed.

Lemma resolveParentheses_none (k : nat) f (e : string) :
  JS.includes e "(" = false -> resolveParentheses k f e = Some e.
Proof. intros H. destruct k; simpl; rewrite H; reflexivity. Qed.

(** A plain numeral evaluates to the number it reads as. *)
Lemma evaluate_plain (k : nat) (a : string) :
  plainNumeral a = true ->
  evaluateMathExpression (S k) a = Some (parseFloatOrZero a).
Proof.
  intros Ha. pose proof Ha as Hp. unfold plainNumeral in Hp.
  apply andb_true_iff in Hp. destruct Hp as [_ Hall].
  cbn [evaluateMathExpression]. rewrite (removeChars_plain a Hall).
  rewrite resolveParentheses_none.
  - rewrite (matchLazy_none isAddSub a plain_not_addSub Hall).
    rewrite (matchLazy_none isMulDiv a plain_not_mulDiv Hall). reflexivity.
  - rewrite <- (append_nil_r a). rewrite (includes_paren_plain a "" Hall). reflexivity.
Qed.

(** ** C4: chains of operators *)

(** An expression [a op rest] without blanks and parentheses, [a] a plain
    numeral and [op] additive, is split at [op]: the whole of [rest] is the
    right operand. *)
Lemma evaluate_additive_split (k : nat) (a rest : string) (op : ascii) :
  plainNumeral a = true -> isAddSub op = true -> rest <> "" ->
  JS.removeChars JS.isWhiteSpace rest = rest -> JS.includes rest "(" = false ->
  evaluateMathExpression (S k) (a ++ String op rest) =
  match evaluateMathExpression k a, evaluateMathExpression k rest with
  | Some x, Some y => Some (applyAddSub op x y)
  | _, _ => None
  end.
Proof.
  intros Ha Hop Hrest Hws Hpar. pose proof Ha as Hp. unfold plainNumeral in Hp.
  apply andb_true_iff in Hp. destruct Hp as [_ Hall].
  assert (Hopw : JS.isWhiteSpace op = false).
  { destruct op as [[] [] [] [] [] [] [] []]; try discriminate Hop; reflexivity. }
  assert (Hopp : Ascii.eqb "(" op = false).
  { destruct op as [[] [] [] [] [] [] [] []]; try discriminate Hop; reflexivity. }
  cbn [evaluateMathExpression].
  rewrite removeChars_append, (removeChars_plain a Hall).
  cbn [JS.removeChars]. rewrite Hopw, Hws.
  rewrite resolveParentheses_none.
  - rewrite (matchLazy_plain isAddSub a rest op plain_not_addSub Ha Hop Hrest).
    rewrite (endsWithOperator_plain a Hall). reflexivity.
  - rewrite (includes_paren_plain a _ Hall).
    cbn [JS.includes JS.startsWith]. rewrite Hopp. exact Hpar.
Qed.

(** The same for a multiplicative [op], when [rest] holds no additive
    operator that something follows. *)
Lemma evaluate_multiplicative_split (k : nat) (a rest : string) (op : ascii) :
  plainNumeral a = true -> isMulDiv op = true -> rest <> "" ->
  JS.removeChars JS.isWhiteSpace rest = rest -> JS.includes rest "(" = false ->
  (forall acc, splitAtFirst isAddSub rest acc = None) ->
  evaluateMathExpression (S k) (a ++ String op rest) =
  match evaluateMathExpression k a, evaluateMathExpression k rest with
  | Some x, Some y => Some (applyMulDiv op x y)
  | _, _ => None
  end.
Proof.
  intros Ha Hop Hrest Hws Hpar Hadd. pose proof Ha as Hp. unfold plainNumeral in Hp.
  apply andb_true_iff in Hp. destruct Hp as [Hne Hall].
  assert (Hopw : JS.isWhiteSpace op = false).
  { destruct op as [[] [] [] [] [] [] [] []]; try discriminate Hop; reflexivity. }
  assert (Hopp : Ascii.eqb "(" op = false).
  { destruct op as [[] [] [] [] [] [] [] []]; try discriminate Hop; reflexivity. }
  assert (Hopa : isAddSub op = false).
  { destruct op as [[] [] [] [] [] [] [] []]; try discriminate Hop; reflexivity. }
  cbn [evaluateMathExpression].
  rewrite removeChars_append, (removeChars_plain a Hall).
  cbn [JS.removeChars]. rewrite Hopw, Hws.
  rewrite resolveParentheses_none.
  - assert (Hno : matchLazy isAddSub (a ++ String op rest) = None).
    { destruct a as [|c a]; [discriminate Hne|]. cbn [append matchLazy].
      cbn [JS.allChars] in Hall. apply andb_true_iff in Hall. destruct Hall as [_ Hall].
      generalize (String c ""). revert Hall. clear -Hadd Hopa.
      induction a as [|c' a IH]; intros Hall acc; cbn [append splitAtFirst].
      - rewrite Hopa. apply Hadd.
      - cbn [JS.allChars] in Hall. apply andb_true_iff in Hall. destruct Hall as [Hc Hall].
        rewrite (plain_not_addSub c' Hc). apply IH. exact Hall. }
    rewrite Hno.
    rewrite (matchLazy_plain isMulDiv a rest op plain_not_mulDiv Ha Hop Hrest).
    reflexivity.
  - rewrite (includes_paren_plain a _ Hall).
    cbn [JS.includes JS.startsWith]. rewrite Hopp. exact Hpar.
Qed.

Lemma plain_rest (op : ascii) (b : string) :
  JS.isWhiteSpace op = false -> Ascii.eqb "(" op = false ->
  plainNumeral b = true ->
  JS.removeChars JS.isWhiteSpace (String op b) = String op b
  /\ JS.includes (String op b) "(" = false.
Proof.
  intros Hw Hp Hb. unfold plainNumeral in Hb.
  apply andb_true_iff in Hb. destruct Hb as [_ Hall]. split.
  - cbn [JS.removeChars]. rewrite Hw, (removeChars_plain b Hall). reflexivity.
  - cbn [JS.includes JS.startsWith]. rewrite Hp. cbn [andb orb].
    rewrite <- (append_nil_r b), (includes_paren_plain b "" Hall). reflexivity.
Qed.

(** Chains of one operator nest to the right: [a - b - c] is computed as
    [a - (b - c)] and [a / b / c] as [a / (b / c)]. *)
Lemma chains_nest_to_the_right (k : nat) (a b c : string) :
  plainNumeral a = true -> plainNumeral b = true -> plainNumeral c = true ->
  evaluateMathExpression (3 + k) (a ++ "-" ++ b ++ "-" ++ c)
  = Some (JS.sub (parseFloatOrZero a)
            (JS.sub (parseFloatOrZero b) (parseFloatOrZero c)))
  /\ evaluateMathExpression (3 + k) (a ++ "/" ++ b ++ "/" ++ c)
  = Some (JS.div (parseFloatOrZero a)
            (JS.div (parseFloatOrZero b) (parseFloatOrZero c))).
Proof.
  intros Ha Hb Hc.
  assert (Hcne : c <> "") by (destruct c; [discriminate Hc | discriminate]).
  assert (Hball : JS.allChars plainChar b = true).
  { unfold plainNumeral in Hb. apply andb_true_iff in Hb. apply Hb. }
  assert (Hcall : JS.allChars plainChar c = true).
  { unfold plainNumeral in Hc. apply andb_true_iff in Hc. apply Hc. }
  assert (Hbne : b <> "") by (destruct b; [discriminate Hb | discriminate]).
  assert (Hcw := removeChars_plain c Hcall).
  assert (Hcp : JS.includes c "(" = false).
  { rewrite <- (append_nil_r c), (includes_paren_plain c "" Hcall). reflexivity. }
  change (3 + k)%nat with (S (S (S k))). split.
  - destruct (plain_rest "-" c eq_refl eq_refl Hc) as [Hw Hp].
    change (a ++ "-" ++ b ++ "-" ++ c) with (a ++ String "-" (b ++ String "-" c)).
    assert (Hrw : JS.removeChars JS.isWhiteSpace (b ++ String "-" c) = b ++ String "-" c).
    { rewrite removeChars_append, (removeChars_plain b Hball), Hw. reflexivity. }
    assert (Hrp : JS.includes (b ++ String "-" c) "(" = false).
    { rewrite (includes_paren_plain b _ Hball). exact Hp. }
    assert (Hrne : b ++ String "-" c <> "") by (destruct b; discriminate).
    rewrite (evaluate_additive_split (S (S k)) a _ "-" Ha eq_refl Hrne Hrw Hrp).
    rewrite (evaluate_plain (S k) a Ha).
    rewrite (evaluate_additive_split (S k) b c "-" Hb eq_refl Hcne Hcw Hcp).
    rewrite (evaluate_plain k b Hb), (evaluate_plain k c Hc). reflexivity.
  - destruct (plain_rest "/" c eq_refl eq_refl Hc) as [Hw Hp].
    change (a ++ "/" ++ b ++ "/" ++ c) with (a ++ String "/" (b ++ String "/" c)).
    assert (Hnone : forall s acc, JS.allChars plainChar s = true ->
                                  splitAtFirst isAddSub s acc = None).
    { intros s acc Hs. apply splitAtFirst_none; [exact plain_not_addSub | exact Hs]. }
    assert (Hrw : JS.removeChars JS.isWhiteSpace (b ++ String "/" c) = b ++ String "/" c).
    { rewrite removeChars_append, (removeChars_plain b Hball), Hw. reflexivity. }
    assert (Hrp : JS.includes (b ++ String "/" c) "(" = false).
    { rewrite (includes_paren_plain b _ Hball). exact Hp. }
    assert (Hrne : b ++ String "/" c <> "") by (destruct b; discriminate).
    assert (Hra : forall acc, splitAtFirst isAddSub (b ++ String "/" c) acc = None).
    { clear -Hball Hcall Hnone.
      induction b as [|c' b IH]; intros acc; cbn [append splitAtFirst].
      - change (isAddSub "/") with false. cbv iota. apply Hnone. exact Hcall.
      - cbn [JS.allChars] in Hball. apply andb_true_iff in Hball.
        destruct Hball as [Hc' Hball].
        rewrite (plain_not_addSub c' Hc'). apply IH. exact Hball. }
    rewrite (evaluate_multiplicative_split (S (S k)) a _ "/" Ha eq_refl Hrne Hrw Hrp Hra).
    rewrite (evaluate_plain (S k) a Ha).
    rewrite (evaluate_multiplicative_split (S k) b c "/" Hb eq_refl Hcne Hcw Hcp
               (fun acc => Hnone c acc Hcall)).
    rewrite (evaluate_plain k b Hb), (evaluate_plain k c Hc). reflexivity.
Qed.

(** C4.  The evaluator on chains of one operator: ["10-2-3"] evaluates to 11
    and ["8/2/2"] to 8, the values of [10-(2-3)] and [8/(2/2)], whatever fuel
    beyond the three levels the evaluation needs; the left-to-right values
    would be 5 and 2. *)
Theorem chains_are_not_left_associative :
  forall k : nat,
    evaluateMathExpression (3 + k) "10-2-3" = Some (JS.ofZ 11)
    /\ evaluateMathExpression (3 + k) "8/2/2" = Some (JS.ofZ 8)
    /\ evaluateFormula (3 + k) "10-2-3" [] = Some "11"
    /\ evaluateFormula (3 + k) "8/2/2" [] = Some "8"
    /\ JS.sub (JS.sub (JS.ofZ 10) (JS.ofZ 2)) (JS.ofZ 3) = JS.ofZ 5
    /\ JS.div (JS.div (JS.ofZ 8) (JS.ofZ 2)) (JS.ofZ 2) = JS.ofZ 2.
Proof.
  intros k.
  destruct (chains_nest_to_the_right k "10" "2" "3" eq_refl eq_refl eq_refl) as [Hs _].
  destruct (chains_nest_to_the_right k "8" "2" "2" eq_refl eq_refl eq_refl) as [_ Hd].
  change ("10" ++ "-" ++ "2" ++ "-" ++ "3") with "10-2-3" in Hs.
  change ("8" ++ "/" ++ "2" ++ "/" ++ "2") with "8/2/2" in Hd.
  assert (Es : JS.sub (parseFloatOrZero "10")
                 (JS.sub (parseFloatOrZero "2") (parseFloatOrZero "3")) = JS.ofZ 11)
    by (vm_compute; reflexivity).
  assert (Ed : JS.div (parseFloatOrZero "8")
                 (JS.div (parseFloatOrZero "2") (parseFloatOrZero "2")) = JS.ofZ 8)
    by (vm_compute; reflexivity).
  rewrite Es in Hs. rewrite Ed in Hd.
  repeat split; try assumption.
  - unfold evaluateFormula. cbn [JS.isEmpty JS.trim orb].
    change (JS.isEmpty (JS.trim "10-2-3")) with false.
    change (collectMatches (scanPlaceholders "10-2-3" None) []) with (Some (@nil (string * JS.number))).
    cbv iota. change (substituteAll "10-2-3" []) with "10-2-3".
    change (negb (allowedExpression "10-2-3")) with false. cbv iota.
    rewrite Hs. reflexivity.
  - unfold evaluateFormula. cbn [JS.isEmpty orb].
    change (JS.isEmpty (JS.trim "8/2/2")) with false.
    change (collectMatches (scanPlaceholders "8/2/2" None) []) with (Some (@nil (string * JS.number))).
    cbv iota. change (substituteAll "8/2/2" []) with "8/2/2".
    change (negb (allowedExpression "8/2/2")) with false. cbv iota.
    rewrite Hd. reflexivity.
Qed.

(** ** C5: the formula evaluator *)

Lemma collectMatches_spec (names : list string) (variables : Variables) ms :
  collectMatches names variables = Some ms ->
  map fst ms = names
  /\ Forall (fun m => numericValue (read variables (fst m)) = Some (snd m)) ms.
Proof.
  revert ms. induction names as [|name names IH]; intros ms H; simpl in H.
  - injection H as <-. split; [reflexivity | constructor].
  - destruct (numericValue (read variables name)) as [n|] eqn:En; [|discriminate H].
    destruct (collectMatches names variables) as [ms'|]; [|discriminate H].
    injection H as <-. destruct (IH ms' eq_refl) as [Hn Hf]. split.
    + simpl. rewrite Hn. reflexivity.
    + constructor; [exact En | exact Hf].
Qed.

Lemma allChars_spec (p : ascii -> bool) (s : string) :
  JS.allChars p s = true <-> forall c, occursIn c s -> p c = true.
Proof.
  induction s as [|a r IH]; simpl.
  - split; [intros _ c [] | reflexivity].
  - rewrite andb_true_iff, IH. split.
    + intros [Ha Hr] c [<- | Hc]; [exact Ha | exact (Hr c Hc)].
    + intros H. split; [apply H; left; reflexivity | intros c Hc; apply H; right; exact Hc].
Qed.

(** Dividing by zero never gives a finite number. *)
Lemma div_by_zero (x y : JS.number) :
  JS.isZero y = true ->
  JS.isNaN (JS.div x y) || negb (JS.isFinite (JS.div x y)) = true.
Proof.
  intros Hy. unfold JS.div. rewrite Hy.
  assert (Hyn : JS.isNaN y = false) by (destruct y; try discriminate Hy; reflexivity).
  assert (Hyi : JS.isInf y = false) by (destruct y; try discriminate Hy; reflexivity).
  rewrite Hyn, Hyi, !andb_false_r, !andb_true_r, !orb_false_r, !orb_true_r. simpl.
  destruct (JS.isNaN x); [reflexivity|].
  destruct (JS.isZero x); [reflexivity|].
  unfold JS.inf. destruct (xorb (JS.isNeg x) (JS.isNeg y)); reflexivity.
Qed.

Lemma toString_zero (x : JS.number) : JS.isZero x = true -> JS.toString x = "0".
Proof.
  destruct x; try discriminate; [reflexivity|]. simpl. intros H. rewrite H. reflexivity.
Qed.

Lemma removeChars_idempotent (p : ascii -> bool) (s : string) :
  JS.removeChars p (JS.removeChars p s) = JS.removeChars p s.
Proof.
  induction s as [|c s IH]; simpl; [reflexivity|].
  destruct (p c) eqn:E; [exact IH|]. simpl. rewrite E, IH. reflexivity.
Qed.

(** Blanks do not matter to the evaluator. *)
Lemma evaluate_without_blanks (k : nat) (e : string) :
  evaluateMathExpression k e
  = evaluateMathExpression k (JS.removeChars JS.isWhiteSpace e).
Proof.
  destruct k; [reflexivity|]. cbn [evaluateMathExpression].
  rewrite removeChars_idempotent. reflexivity.
Qed.

Lemma revOnto_over_append (a b acc : string) :
  JS.revOnto (a ++ b) acc = JS.revOnto b (JS.revOnto a acc).
Proof.
  revert acc. induction a as [|c a IH]; intros acc; simpl; [reflexivity | apply IH].
Qed.

(** What [split] does with a plain prefix: no separator starts in it. *)
Lemma splitFrom_plain (sep' a rest cur : string) :
  JS.allChars plainChar a = true ->
  JS.splitFrom (String "{" sep') (a ++ rest) 0 cur
  = JS.splitFrom (String "{" sep') rest 0 (JS.revOnto a cur).
Proof.
  revert cur. induction a as [|c a IH]; intros cur Ha; [reflexivity|].
  cbn [JS.allChars] in Ha. apply andb_true_iff in Ha. destruct Ha as [Hc Ha].
  destruct (plainChar_facts c Hc) as (_ & _ & _ & _ & _ & _ & Hb & _).
  cbn [append JS.splitFrom JS.startsWith JS.revOnto].
  rewrite Ascii.eqb_sym, Hb. cbn [andb]. apply IH. exact Ha.
Qed.

(** Division by a variable that is zero: the formula ["{a} / {b}"] yields
    the empty string whenever [b] stands for zero and [a] prints as a plain
    numeral. *)
Lemma division_by_zero_variable (k : nat) (variables : Variables) (na nb : JS.number) :
  numericValue (read variables "a") = Some na ->
  numericValue (read variables "b") = Some nb ->
  JS.isZero nb = true ->
  plainNumeral (JS.toString na) = true ->
  evaluateFormula (2 + k) "{a} / {b}" variables = Some "".
Proof.
  intros Ha Hb Hz Hp.
  pose proof Hp as Hp'. unfold plainNumeral in Hp'. apply andb_true_iff in Hp'.
  destruct Hp' as [Hne Hall].
  unfold evaluateFormula.
  change (JS.isEmpty "{a} / {b}" || JS.isEmpty (JS.trim "{a} / {b}")) with false.
  cbv iota.
  change (scanPlaceholders "{a} / {b}" None) with ["a"; "b"].
  cbn [collectMatches]. rewrite Ha, Hb.
  assert (Hexpr : substituteAll "{a} / {b}" [("a", na); ("b", nb)]
                  = JS.toString na ++ " / 0").
  { unfold substituteAll. cbn [fold_left]. unfold substituteOne at 2.
    cbn [fst snd].
    change (JS.split ("{" ++ "a" ++ "}") "{a} / {b}") with [""; " / {b}"].
    cbn [JS.join append]. unfold substituteOne. cbn [fst snd].
    change ("{" ++ "b" ++ "}") with (String "{" "b}").
    unfold JS.split. rewrite (splitFrom_plain "b}" (JS.toString na) " / {b}" "" Hall).
    cbn [JS.splitFrom JS.startsWith Ascii.eqb Bool.eqb andb String.length Nat.sub].
    cbn [JS.join]. rewrite (toString_zero nb Hz).
    change (String " " (String "/" (String " " (JS.revOnto (JS.toString na) ""))))
      with (JS.revOnto " / " (JS.revOnto (JS.toString na) "")).
    rewrite <- revOnto_over_append, rev_revOnto.
    change (JS.rev "") with "". cbn [append]. rewrite append_assoc. reflexivity. }
  rewrite Hexpr.
  assert (Hallowed : allowedExpression (JS.toString na ++ " / 0") = true).
  { unfold allowedExpression. apply andb_true_iff. split.
    - destruct (JS.toString na); [discriminate Hne | reflexivity].
    - rewrite allChars_append. apply andb_true_iff. split; [|reflexivity].
      apply allChars_spec. intros c Hc.
      apply (plainChar_facts c). revert c Hc. apply allChars_spec. exact Hall. }
  rewrite Hallowed. cbn [negb]. cbv iota.
  change (2 + k)%nat with (S (S k)).
  rewrite evaluate_without_blanks, removeChars_append, (removeChars_plain _ Hall).
  change (JS.removeChars JS.isWhiteSpace " / 0") with (String "/" "0").
  rewrite (evaluate_multiplicative_split (S k) (JS.toString na) "0" "/" Hp eq_refl);
    try reflexivity; try discriminate.
  rewrite (evaluate_plain k _ Hp).
  rewrite (evaluate_plain k "0" eq_refl).
  change (parseFloatOrZero "0") with (JS.ofZ 0).
  unfold applyMulDiv. change (Ascii.eqb "/" "*") with false. cbv iota.
  rewrite (div_by_zero _ (JS.ofZ 0) eq_refl). reflexivity.
Qed.

Lemma allowedChar_spec (c : ascii) :
  allowedChar c = true <->
  JS.isDigit c = true \/ JS.isWhiteSpace c = true
  \/ In c ["+"; "-"; "*"; "/"; "("; ")"; "."]%char.
Proof.
  unfold allowedChar, isOperatorChar. rewrite !orb_true_iff, !Ascii.eqb_eq. simpl.
  intuition congruence.
Qed.

(** C5.  Dividing by a variable equal to 0 does not always yield the empty
    string.  With [a = b = 0], ["{a} / {b}"] yields the empty string, but
    ["({a} / {b}) + 5"] yields ["5"]: the quotient in parentheses is NaN,
    it is written back into the expression as the text [NaN], and
    [parseFloat(...) || 0] reads that text as 0.  With [a = 8], [b = 2] and
    [c = 0], ["{a} / {b} / {c}"] yields ["0"], the value of [8 / (2 / 0)].
    A variable that is missing counts as 0, so that ["{x} + 1"] yields
    ["1"], unless its name is one that every object inherits: [replace] is
    then called on a function, and ["{constructor} + 1"] yields the empty
    string.  All of this whatever fuel beyond the four levels the
    evaluations need. *)
Theorem division_by_zero_is_not_always_empty :
  forall k : nat,
    let zeros : Variables := [("a", SVal "0"); ("b", SVal "0")] in
    let chain : Variables := [("a", SVal "8"); ("b", SVal "2"); ("c", SVal "0")] in
    evaluateFormula (4 + k) "{a} / {b}" zeros = Some ""
    /\ evaluateFormula (4 + k) "({a} / {b}) + 5" zeros = Some "5"
    /\ evaluateFormula (4 + k) "{a} / {b} / {c}" chain = Some "0"
    /\ evaluateFormula (4 + k) "{x} + 1" [] = Some "1"
    /\ evaluateFormula (4 + k) "{constructor} + 1" [] = Some "".
Proof.
  intros k zeros chain.
  repeat split; apply (evaluateFormula_mono 4); try lia; vm_compute; reflexivity.
Qed.

(** ** Records *)

Lemma get_set_same {V : Type} (r : Record V) (k : string) (v : V) :
  get (set r k v) k = Some v.
Proof.
  induction r as [|[k' v'] r IH]; simpl.
  - rewrite String.eqb_refl. reflexivity.
  - destruct (String.eqb k' k) eqn:E; simpl; rewrite E; [reflexivity | exact IH].
Qed.

Lemma get_set_other {V : Type} (r : Record V) (k k' : string) (v : V) :
  k <> k' -> get (set r k v) k' = get r k'.
Proof.
  intros Hne. induction r as [|[k0 v0] r IH]; simpl.
  - destruct (String.eqb k k') eqn:E; [|reflexivity].
    apply String.eqb_eq in E. congruence.
  - destruct (String.eqb k0 k) eqn:E; simpl.
    + apply String.eqb_eq in E. subst k0.
      destruct (String.eqb k k') eqn:E'; [|reflexivity].
      apply String.eqb_eq in E'. congruence.
    + destruct (String.eqb k0 k'); [reflexivity | exact IH].
Qed.

Lemma get_set {V : Type} (r : Record V) (k k' : string) (v : V) :
  get (set r k v) k' = if String.eqb k k' then Some v else get r k'.
Proof.
  destruct (String.eqb k k') eqn:E.
  - apply String.eqb_eq in E. subst. apply get_set_same.
  - apply String.eqb_neq in E. apply get_set_other. exact E.
Qed.

(** ** C8: the case variations *)

Lemma get_setAlias (result : Variables) (k k' : string) (v : string) :
  get (setAlias result k v) k' =
  if String.eqb k k' && negb (truthyProperty (read result k)) then Some (SVal v)
  else get result k'.
Proof.
  unfold setAlias. destruct (truthyProperty (read result k)); simpl.
  - rewrite andb_false_r. reflexivity.
  - rewrite andb_true_r. apply get_set.
Qed.

(** An alias leaves every binding that is not empty as it is. *)
Lemma setAlias_keeps (result : Variables) (k k' : string) (v : string) (x : VarValue) :
  get result k' = Some x -> truthyVar (Some x) = true ->
  get (setAlias result k v) k' = Some x.
Proof.
  intros Hx Ht. rewrite get_setAlias.
  destruct (String.eqb k k') eqn:E; simpl; [|exact Hx].
  apply String.eqb_eq in E. subst k'. unfold read. rewrite Hx.
  cbn [truthyProperty]. rewrite Ht. reflexivity.
Qed.

Lemma setAlias_bound (result : Variables) (k k' : string) (v : string) :
  get result k' <> None -> get (setAlias result k v) k' <> None.
Proof.
  intros H. rewrite get_setAlias.
  destruct (String.eqb k k' && negb (truthyProperty (read result k)));
    [discriminate | exact H].
Qed.

(** An alias whose name is not an inherited one is bound afterwards. *)
Lemma setAlias_binds (result : Variables) (k : string) (v : string) :
  inherited k = false -> get (setAlias result k v) k <> None.
Proof.
  intros Hk. rewrite get_setAlias, String.eqb_refl. unfold read. rewrite Hk.
  destruct (get result k) as [x|] eqn:E; cbn [truthyProperty andb].
  - destruct (negb (truthyVar (Some x))); discriminate.
  - discriminate.
Qed.

Lemma caseVariations_keeps (result : Variables) (entry : string * VarValue)
    (k : string) (x : VarValue) :
  get result k = Some x -> truthyVar (Some x) = true -> fst entry <> k ->
  get (caseVariations result entry) k = Some x.
Proof.
  intros Hx Ht Hne. destruct entry as [key [s|items]]; simpl in *.
  - repeat apply setAlias_keeps; try exact Ht.
    rewrite get_set_other; assumption.
  - rewrite get_set_other; assumption.
Qed.

Lemma caseVariations_bound (result : Variables) (entry : string * VarValue) (k : string) :
  get result k <> None -> get (caseVariations result entry) k <> None.
Proof.
  intros H. destruct entry as [key [s|items]]; simpl.
  - repeat apply setAlias_bound. rewrite get_set.
    destruct (String.eqb key k); [discriminate | exact H].
  - rewrite get_set. destruct (String.eqb key k); [discriminate | exact H].
Qed.

Lemma fold_caseVariations_keeps (l : list (string * VarValue)) (result : Variables)
    (k : string) (x : VarValue) :
  get result k = Some x -> truthyVar (Some x) = true -> ~ In k (keys l) ->
  get (fold_left caseVariations l result) k = Some x.
Proof.
  revert result. induction l as [|e l IH]; intros result Hx Ht Hnin; simpl.
  - exact Hx.
  - apply IH.
    + apply caseVariations_keeps; try assumption.
      intros Heq. apply Hnin. left. exact Heq.
    + exact Ht.
    + intros Hin. apply Hnin. right. exact Hin.
Qed.

Lemma fold_caseVariations_bound (l : list (string * VarValue)) (result : Variables)
    (k : string) :
  get result k <> None -> get (fold_left caseVariations l result) k <> None.
Proof.
  revert result. induction l as [|e l IH]; intros result H; simpl.
  - exact H.
  - apply IH. apply caseVariations_bound. exact H.
Qed.

Lemma setAlias_source (result : Variables) (k k' : string) (v : string) (x : VarValue) :
  get (setAlias result k v) k' = Some x ->
  get result k' = Some x \/ (k' = k /\ x = SVal v).
Proof.
  rewrite get_setAlias.
  destruct (String.eqb k k' && negb (truthyProperty (read result k))) eqn:E; intros H.
  - right. apply andb_true_iff in E. destruct E as [E _]. apply String.eqb_eq in E.
    split; congruence.
  - left. exact H.
Qed.

(** Where a binding of the map comes from after one entry is processed. *)
Lemma caseVariations_source (result : Variables) (entry : string * VarValue)
    (k' : string) (x : VarValue) :
  get (caseVariations result entry) k' = Some x ->
  get result k' = Some x
  \/ (exists v, snd entry = SVal v /\ x = SVal v
                /\ (k' = fst entry \/ In k' (variantsOf (fst entry))))
  \/ (exists items, entry = (k', AVal items) /\ x = AVal items).
Proof.
  destruct entry as [key [s|items]]; cbn [caseVariations fst snd]; intros H.
  - assert (Hsrc :
               (k' = key \/ In k' (variantsOf key)) -> x = SVal s ->
               get result k' = Some x
               \/ (exists v, SVal s = SVal v /\ x = SVal v
                             /\ (k' = key \/ In k' (variantsOf key)))
               \/ (exists items, (key, SVal s) = (k', AVal items) /\ x = AVal items)).
    { intros Hk Hx. right; left. exists s. auto. }
    apply setAlias_source in H. destruct H as [H | [-> ->]];
      [| apply Hsrc; simpl; auto 8].
    apply setAlias_source in H. destruct H as [H | [-> ->]];
      [| apply Hsrc; simpl; auto 8].
    apply setAlias_source in H. destruct H as [H | [-> ->]];
      [| apply Hsrc; simpl; auto 8].
    apply setAlias_source in H. destruct H as [H | [-> ->]];
      [| apply Hsrc; simpl; auto 8].
    rewrite get_set in H. destruct (String.eqb key k') eqn:E.
    + apply String.eqb_eq in E. apply Hsrc; [left; congruence | congruence].
    + left. exact H.
  - rewrite get_set in H. destruct (String.eqb key k') eqn:E.
    + apply String.eqb_eq in E. subst. right; right. exists items.
      split; [reflexivity | congruence].
    + left. exact H.
Qed.

Lemma caseVariations_sources (l : list (string * VarValue)) (k' : string) (x : VarValue) :
  get (fold_left caseVariations l []) k' = Some x ->
  (exists k v, In (k, SVal v) l /\ x = SVal v /\ (k' = k \/ In k' (variantsOf k)))
  \/ (exists items, In (k', AVal items) l /\ x = AVal items).
Proof.
  induction l as [|e l IH] using rev_ind; intros H.
  - discriminate H.
  - rewrite fold_left_app in H. simpl in H.
    apply caseVariations_source in H. destruct H as [H | [H | H]].
    + destruct (IH H) as [(k & v & Hin & Hx & Hk) | (items & Hin & Hx)].
      * left. exists k, v. split; [apply in_or_app; left; exact Hin | auto].
      * right. exists items. split; [apply in_or_app; left; exact Hin | exact Hx].
    + destruct H as (v & He & Hx & Hk). left. exists (fst e), v.
      split; [|auto]. apply in_or_app. right. left.
      destruct e as [k0 x0]. simpl in *. subst. reflexivity.
    + destruct H as (items & He & Hx). right. exists items.
      split; [|exact Hx]. apply in_or_app. right. left. exact He.
Qed.

Lemma caseVariations_binds_variants (result : Variables) (key v : string) (k' : string) :
  k' = key \/ (In k' (variantsOf key) /\ inherited k' = false) ->
  get (caseVariations result (key, SVal v)) k' <> None.
Proof.
  intros Hk. simpl.
  destruct Hk as [-> | [[<- | [<- | [<- | [<- | []]]]] Hi]].
  - do 4 apply setAlias_bound. rewrite get_set_same. discriminate.
  - do 3 apply setAlias_bound. apply setAlias_binds. exact Hi.
  - do 2 apply setAlias_bound. apply setAlias_binds. exact Hi.
  - apply setAlias_bound. apply setAlias_binds. exact Hi.
  - apply setAlias_binds. exact Hi.
Qed.

Lemma caseVariations_own (result : Variables) (key v : string) :
  v <> "" -> get (caseVariations result (key, SVal v)) key = Some (SVal v).
Proof.
  intros Hv. simpl. repeat apply setAlias_keeps.
  - apply get_set_same.
  - destruct v; [congruence | reflexivity].
  - destruct v; [congruence | reflexivity].
  - destruct v; [congruence | reflexivity].
  - destruct v; [congruence | reflexivity].
Qed.

Lemma NoDup_keys_split {V : Type} (l1 l2 : list (string * V)) (k : string) (x : V) :
  NoDup (keys (l1 ++ (k, x) :: l2)%list) -> ~ In k (keys l2).
Proof.
  unfold keys. rewrite map_app. simpl. intros H.
  apply NoDup_remove_2 in H. intros Hin. apply H. apply in_or_app. right. exact Hin.
Qed.

(** A key occurs once: it has one value. *)
Lemma NoDup_keys_value {V : Type} (l : list (string * V)) (k : string) (x y : V) :
  NoDup (keys l) -> In (k, x) l -> In (k, y) l -> x = y.
Proof.
  induction l as [|[k0 x0] l IH]; intros Hnd Hx Hy; [destruct Hx|].
  simpl in Hnd. inversion Hnd as [|? ? Hnin Hnd']; subst.
  assert (Hkey : forall z, In (k, z) l -> In k (map fst l)).
  { intros z Hz. change k with (fst (k, z)). apply in_map. exact Hz. }
  destruct Hx as [Hx | Hx]; destruct Hy as [Hy | Hy].
  - congruence.
  - injection Hx as -> ->. exfalso. apply Hnin. exact (Hkey y Hy).
  - injection Hy as -> ->. exfalso. apply Hnin. exact (Hkey x Hx).
  - exact (IH Hnd' Hx Hy).
Qed.



(** The guard [if (!result[k])] on an empty binding and on an inherited
    name, which the statement above leaves aside.  An empty string counts
    as no binding: the flag [hasUSAddress], empty, takes the value of
    [HasUSAddress] when that key is expanded.  A name that every object
    inherits counts as a binding: the alias [constructor] of [Constructor]
    is never written, and reading it gives the inherited function. *)
Lemma guard_on_empty_and_inherited :
  get (createCaseVariations [("hasUSAddress", SVal ""); ("HasUSAddress", SVal "no")])
    "hasUSAddress" = Some (SVal "no")
  /\ get (createCaseVariations [("Constructor", SVal "x")]) "constructor" = None
  /\ read (createCaseVariations [("Constructor", SVal "x")]) "constructor" = Inherited.
Proof. vm_compute. repeat split; reflexivity. Qed.

(** ** C7: the last business day of a month *)

Lemma daysFromCivil_day (y m d : Z) :
  daysFromCivil (Date.mk y m d) = (daysFromCivil (Date.mk y m 0) + d)%Z.
Proof. unfold daysFromCivil; simpl. lia. Qed.

Lemma daysInMonth_bounds (y m : Z) : (28 <= daysInMonth y m <= 31)%Z.
Proof.
  unfold daysInMonth.
  destruct (m =? 1)%Z; [destruct (isLeapYear y); lia|].
  destruct ((m =? 3) || (m =? 5) || (m =? 8) || (m =? 10))%Z; lia.
Qed.

Lemma iterate_nextDay (n : nat) (y m d : Z) :
  (1 <= d)%Z -> (d + Z.of_nat n <= daysInMonth y m)%Z ->
  iterate nextDay n (Date.mk y m d) = Date.mk y m (d + Z.of_nat n).
Proof.
  revert d. induction n as [|n IH]; intros d Hd Hle.
  - simpl. f_equal. lia.
  - cbn [iterate]. unfold nextDay at 2. cbn [Date.year Date.month Date.day].
    assert (E : (d <? daysInMonth y m)%Z = true) by (apply Z.ltb_lt; lia).
    rewrite E, IH by lia. f_equal. lia.
Qed.

(** Within a month, [MakeDay] is the date itself. *)
Lemma makeDay_in_month (y m d : Z) :
  (0 <= m <= 11)%Z -> (1 <= d <= daysInMonth y m)%Z ->
  makeDay y m d = Date.mk y m d.
Proof.
  intros Hm Hd. unfold makeDay.
  rewrite Z.div_small, Z.mod_small by lia.
  assert (E : (1 <=? d)%Z = true) by (apply Z.leb_le; lia).
  rewrite E, Z.add_0_r, iterate_nextDay by lia.
  f_equal. lia.
Qed.

(** Day 0 of the next month is the last day of the month. *)
Lemma makeDay_last (y m : Z) :
  (0 <= m <= 11)%Z ->
  makeDay y (m + 1) 0 = Date.mk y m (daysInMonth y m).
Proof.
  intros Hm. unfold makeDay. change (1 <=? 0)%Z with false. cbv iota.
  change (Z.to_nat (1 - 0)) with 1%nat. cbn [iterate].
  destruct (Z.eq_dec m 11) as [-> | Hne].
  - change ((11 + 1) / 12)%Z with 1%Z. change ((11 + 1) mod 12)%Z with 0%Z.
    unfold prevDay. cbn [Date.year Date.month Date.day]. simpl.
    f_equal. lia.
  - rewrite Z.div_small, Z.mod_small by lia.
    unfold prevDay. cbn [Date.year Date.month Date.day].
    change (1 <? 1)%Z with false. cbv iota.
    assert (E : (m + 1 =? 0)%Z = false) by (apply Z.eqb_neq; lia).
    rewrite E, Z.add_0_r. replace (m + 1 - 1)%Z with m by lia. reflexivity.
Qed.

Lemma inDateRange_common (y m d : Z) :
  (-200000 <= y <= 200000)%Z -> (0 <= m <= 11)%Z -> (1 <= d <= 31)%Z ->
  inDateRange (Date.mk y m d) = true.
Proof.
  intros Hy Hm Hd. unfold inDateRange, daysFromCivil.
  cbn [Date.year Date.month Date.day]. apply Z.leb_le.
  destruct (m + 1 <=? 2)%Z; Z.to_euclidean_division_equations; lia.
Qed.

Lemma isWeekend_spec (y m d : Z) :
  isWeekend (Date.mk y m d) = true <->
  ((daysFromCivil (Date.mk y m 0) + d + 4) mod 7 = 0
   \/ (daysFromCivil (Date.mk y m 0) + d + 4) mod 7 = 6)%Z.
Proof.
  unfold isWeekend, getDay. rewrite daysFromCivil_day, orb_true_iff, !Z.eqb_eq.
  reflexivity.
Qed.

(** The weekend loop, started on the last day of a month, is over after
    two turns at most; it stops on the last day of the month that is
    neither a Saturday nor a Sunday. *)
Lemma skipWeekend_month_end (k : nat) (y m : Z) :
  (0 <= m <= 11)%Z ->
  let d := lastWeekday y m in
  skipWeekend (2 + k) (Date.mk y m (daysInMonth y m)) = Some (Date.mk y m d)
  /\ (daysInMonth y m - 2 <= d <= daysInMonth y m)%Z
  /\ isWeekend (Date.mk y m d) = false
  /\ (forall d', (d < d' <= daysInMonth y m)%Z -> isWeekend (Date.mk y m d') = true).
Proof.
  intros Hm. pose proof (daysInMonth_bounds y m) as Hb.
  unfold lastWeekday. cbv zeta.
  set (n := daysInMonth y m) in *.
  assert (Hstep : forall d, (2 <= d <= n)%Z ->
                    setDate (Date.mk y m d) (Date.day (Date.mk y m d) - 1)
                    = Date.mk y m (d - 1)).
  { intros d Hd. unfold setDate. cbn [Date.year Date.month Date.day].
    apply makeDay_in_month; [exact Hm | fold n; lia]. }
  change (2 + k)%nat with (S (S k)).
  destruct (isWeekend (Date.mk y m n)) eqn:E0; cbn [negb].
  - destruct (isWeekend (Date.mk y m (n - 1))) eqn:E1; cbn [negb].
    + assert (E2 : isWeekend (Date.mk y m (n - 2)) = false).
      { apply isWeekend_spec in E0. apply isWeekend_spec in E1.
        destruct (isWeekend (Date.mk y m (n - 2))) eqn:E2; [|reflexivity].
        apply isWeekend_spec in E2. exfalso.
        Z.to_euclidean_division_equations; lia. }
      split.
      * cbn [skipWeekend]. rewrite E0, Hstep by lia. rewrite E1, Hstep by lia.
        replace (n - 1 - 1)%Z with (n - 2)%Z by lia.
        destruct k; cbn [skipWeekend]; rewrite E2; reflexivity.
      * split; [lia|]. split; [exact E2|].
        intros d' Hd'. assert (Hc : d' = n \/ d' = (n - 1)%Z) by lia.
        destruct Hc as [-> | ->]; assumption.
    + split.
      * cbn [skipWeekend]. rewrite E0, Hstep by lia. rewrite E1. reflexivity.
      * split; [lia|]. split; [exact E1|].
        intros d' Hd'. assert (Hc : d' = n) by lia. subst d'. exact E0.
  - split.
    + cbn [skipWeekend]. rewrite E0. reflexivity.
    + split; [lia|]. split; [exact E0|]. intros d' Hd'. lia.
Qed.

Lemma targetOf_cases (y m d : Z) :
  (0 <= m <= 11)%Z ->
  targetOf (y, m, d)
  = ((if (d <? 15)%Z then y else if (m =? 11)%Z then (y + 1)%Z else y),
     (if (d <? 15)%Z then m else if (m =? 11)%Z then 0%Z else (m + 1)%Z)).
Proof.
  intros Hm. unfold targetOf. destruct (d <? 15)%Z.
  - assert (E : (11 <? m)%Z = false) by (apply Z.ltb_ge; lia). rewrite E. reflexivity.
  - destruct (m =? 11)%Z eqn:E11.
    + apply Z.eqb_eq in E11. subst m. reflexivity.
    + apply Z.eqb_neq in E11.
      assert (E : (11 <? m + 1)%Z = false) by (apply Z.ltb_ge; lia).
      rewrite E. reflexivity.
Qed.

Lemma lastBusinessDay_walks (k : nat) (ty tm : Z) :
  (100 <= ty <= 10000)%Z -> (0 <= tm <= 11)%Z ->
  lastBusinessDay (2 + k) (ty, tm) = Walked (Date.mk ty tm (lastWeekday ty tm)).
Proof.
  intros Hy Hm. destruct (skipWeekend_month_end k ty tm Hm) as (Hs & _).
  unfold lastBusinessDay, newDate.
  assert (E : ((0 <=? ty) && (ty <=? 99))%Z = false).
  { apply andb_false_iff. right. apply Z.leb_gt. lia. }
  rewrite E, makeDay_last by exact Hm.
  pose proof (daysInMonth_bounds ty tm) as Hd.
  rewrite inDateRange_common by lia.
  rewrite Hs. reflexivity.
Qed.


(** ** C6: the fallback share of a founder *)

(** What stage 10 writes for the first founder: the quotient, unrounded. *)
Lemma fallbackFounder1_value (result : Variables) (cash fmv : string) :
  truthyVar (get result "Founder1Share") = false ->
  get result "Founder1Cash" = Some (SVal cash) -> cash <> "" ->
  get result "FMV" = Some (SVal fmv) -> fmv <> "" ->
  let cashNum := JS.parseFloat (JS.removeChars isDollarOrComma cash) in
  let fmvNum := JS.parseFloat (JS.removeChars isDollarOrComma fmv) in
  JS.isNaN cashNum = false -> JS.isNaN fmvNum = false ->
  JS.eqb fmvNum (JS.ofZ 0) = false ->
  fallbackFounder1 result
  = Some (set result "Founder1Share"
            (SVal (formatNumberWithComma (IsNumber (JS.div cashNum fmvNum))))).
Proof.
  intros Hshare Hcash Hc Hfmv Hf cashNum fmvNum Hcn Hfn Hz.
  unfold fallbackFounder1. rewrite Hshare, Hcash, Hfmv. cbn [truthyVar amountOf negb].
  destruct cash as [|c0 cash']; [congruence|].
  destruct fmv as [|f0 fmv']; [congruence|].
  cbn [JS.isEmpty negb andb]. fold cashNum fmvNum. rewrite Hcn, Hfn, Hz. reflexivity.
Qed.

(** C6.  With one founder who paid in 5 and a fair market value of 2, the
    fallback binds [Founder1Share] to ["2.5"], the quotient as it is, and
    [shareSum] to ["2.5"]; the [share] field that stage 10d attaches to the
    same founder in the [founders] array is ["2"], the quotient floored. *)
Theorem fallback_share_is_not_floored :
  let after10 := stageFallbackShares founderSample in
  let after10b := andThen after10 stageSums in
  let after10d := andThen after10b stageFounderShares in
  andThen after10 (fun r => get r "Founder1Share") = Some (SVal "2.5")
  /\ andThen after10b (fun r => get r "cashSum") = Some (SVal "$5")
  /\ andThen after10b (fun r => get r "shareSum") = Some (SVal "2.5")
  /\ andThen after10d (fun r => get r "Founder1Share") = Some (SVal "2.5")
  /\ andThen after10d (fun r => get r "founders")
     = Some (AVal [[("name", FString "Jane Doe"); ("cash", FString "$5");
                    ("share", FString "2")]])
  /\ formatNumberWithComma
       (IsNumber (JS.floor (JS.div (JS.parseFloat "5") (JS.parseFloat "2")))) = "2".
Proof. vm_compute. repeat split; reflexivity. Qed.

(** ** C10: the flags *)

(** The flag idiom yields ["true"] or the empty string, never ["false"]. *)
Lemma flag_values (b : bool) :
  flag b = (if b then "true" else "") /\ flag b <> "false".
Proof. destruct b; split; [reflexivity | discriminate | reflexivity | discriminate]. Qed.

(** Stage 4b writes the raw answer over the flag that stage 4 has just set. *)
Lemma hasUSAddress_overwritten (s : string) (result : Variables) :
  let responses := [SurveyResponse.mk "hasUSAddress" (VText s)] in
  get (stageCompanyAddress responses result) "hasUSAddress"
  = Some (SVal (flag (String.eqb s "yes")))
  /\ get (stageAutoVariables responses (stageCompanyAddress responses result))
       "hasUSAddress" = Some (SVal s).
Proof.
  intros responses. split.
  - unfold stageCompanyAddress. rewrite get_set_same. reflexivity.
  - unfold stageAutoVariables, responses. cbn [fold_left]. unfold autoVariable.
    cbn [SurveyResponse.questionId SurveyResponse.value].
    change (JS.startsWith "__" "hasUSAddress") with false.
    change (isRepeatingGroup (VText s)) with false. cbv iota.
    change (existsb (String.eqb (JS.toLowerCase "hasUSAddress")) companyNameFields)
      with false.
    change (existsb (String.eqb (JS.toLowerCase "hasUSAddress")) personNameFields)
      with false.
    cbv iota. change (JS.upperFirst "hasUSAddress") with "HasUSAddress".
    rewrite get_set_other by discriminate. apply get_set_same.
Qed.

(** C10.  Every statement that emits a flag writes ["true"] or the empty
    string.  The flag [hasUSAddress] does not keep that value: for the
    answer ["no"], stage 4 binds it to the empty string, stage 4b rebinds it
    to ["no"], and ["no"] is what the final map holds. *)
Theorem hasUSAddress_flag_is_overwritten :
  (forall b, flag b = (if b then "true" else "") /\ flag b <> "false")
  /\ get (stageCompanyAddress noUSAddressSample []) "hasUSAddress" = Some (SVal "")
  /\ get (stageAutoVariables noUSAddressSample
            (stageCompanyAddress noUSAddressSample [])) "hasUSAddress"
     = Some (SVal "no")
  /\ get (createCaseVariations
            (stageComputed noUSAddressSample
               (stageStockOption noUSAddressSample
                  (stageAutoVariables noUSAddressSample
                     (stageCompanyAddress noUSAddressSample [])))))
       "hasUSAddress" = Some (SVal "no").
Proof.
  split; [exact flag_values|].
  vm_compute. repeat split; reflexivity.
Qed.

(** ** The theorems at sample inputs *)

Lemma selectTemplates_partition_witness :
  In partialMatchTemplate sampleTemplates
  /\ Template.isActive partialMatchTemplate = true
  /\ RuleEvaluationResult.score (evaluateRules partialMatchTemplate sampleResponses None)
     = JS.Fin (Qmake 1 2)
  /\ In partialMatchTemplate
       (TemplateSelection.optional
          (selectTemplates codeUnitCompare sampleResponses sampleTemplates None))
  /\ ~ In partialMatchTemplate
       (TemplateSelection.suggested
          (selectTemplates codeUnitCompare sampleResponses sampleTemplates None))
  /\ ~ In partialMatchTemplate
       (TemplateSelection.required
          (selectTemplates codeUnitCompare sampleResponses sampleTemplates None)).
Proof.
  assert (Hin : In partialMatchTemplate sampleTemplates) by (simpl; auto).
  split; [exact Hin|]. split; [reflexivity|].
  apply (proj2 (proj2 (proj2 (proj2
           (selectTemplates_partition codeUnitCompare sampleResponses sampleTemplates None))))
           partialMatchTemplate Hin).
  - reflexivity.
  - vm_compute. reflexivity.
  - vm_compute. lia.
  - vm_compute. reflexivity.
Defined.

Lemma evaluateRules_spec_witness :
  existsb SelectionRule.isAlwaysInclude (rulesOf partialMatchTemplate) = false
  /\ existsb SelectionRule.isManualOnly (rulesOf partialMatchTemplate) = false
  /\ RuleEvaluationResult.matchedRules
       (evaluateRules partialMatchTemplate sampleResponses None) = 1%nat
  /\ RuleEvaluationResult.totalRules
       (evaluateRules partialMatchTemplate sampleResponses None) = 2%nat.
Proof.
  split; [reflexivity|]. split; [reflexivity|].
  destruct (proj1 (proj2 (proj2 (proj2
              (evaluateRules_spec partialMatchTemplate sampleResponses None))))
              eq_refl eq_refl) as (Hm & Ht & _).
  split.
  - rewrite Hm. vm_compute. reflexivity.
  - rewrite Ht. vm_compute. reflexivity.
Defined.




Lemma evaluateRules_priority_irrelevant_witness :
  Template.id partialMatchTemplate = Template.id partialMatchReordered
  /\ Permutation (map forgetPriority (rulesOf partialMatchTemplate))
       (map forgetPriority (rulesOf partialMatchReordered))
  /\ evaluateRules partialMatchTemplate sampleResponses None
     = evaluateRules partialMatchReordered sampleResponses None.
Proof.
  assert (HP : Permutation (map forgetPriority (rulesOf partialMatchTemplate))
                 (map forgetPriority (rulesOf partialMatchReordered)))
    by (simpl; apply perm_swap).
  split; [reflexivity|]. split; [exact HP|].
  apply (evaluateRules_priority_irrelevant partialMatchTemplate partialMatchReordered
           sampleResponses None eq_refl HP).
Defined.
